(** * pytoolkit: the staged test-execution engine

    A shallow embedding of [stages.py], [test_factory.py], [test_suites.py],
    [metrics.py] and the entry checks of [api/graph.py], with the properties
    the specification states about them.

    Conventions of the embedding.
    - A Python value is a term of [value]; a [dict] keeps its insertion order
      and is an association list without repeated keys.
    - A number is read as the rational it denotes ([Q]). A Python [int] has
      any size, and its conversion to a float fails beyond the range of a
      double as it does in Python. A Python float is a finite number; NaN
      and the infinities are not values of the model, and arithmetic on
      floats is exact: it neither rounds nor overflows. Statements about
      computed numbers are made for magnitudes at which a double does not
      overflow, and only where rounding to the nearest double preserves
      them.
    - A call either returns or raises: [outcome].
    - [print] writes to standard output, which is not modelled. *)

From Stdlib Require Import List String Ascii Bool Arith ZArith QArith Qround Lia Lqa.
From Stdlib Require Import Permutation Sorted.
Import ListNotations.

Close Scope Q_scope.
Open Scope string_scope.
#[local] Set Warnings "-register-all".
Open Scope list_scope.

(* ================================================================== *)
(** ** Python values *)

Inductive value : Type :=
| VNone
| VBool (b : bool)
| VInt (n : Z)
| VFloat (x : Q)
| VStr (s : string)
| VList (items : list value)
| VDict (entries : list (string * value)).

(** A dict with string keys: insertion ordered, one entry per key. *)
Definition pydict (V : Type) : Type := list (string * V).
Definition dict : Type := pydict value.

Section Dict.
Context {V : Type}.

(** [d.get(k)]; [Some] exactly when [k in d]. *)
Fixpoint dict_get (d : pydict V) (k : string) : option V :=
  match d with
  | [] => None
  | (k', v) :: rest => if k' =? k then Some v else dict_get rest k
  end.

(** [k in d] *)
Definition dict_contains (d : pydict V) (k : string) : bool :=
  match dict_get d k with Some _ => true | None => false end.

(** [d[k] = v]: an existing key keeps its position, a new key goes last. *)
Fixpoint dict_set (d : pydict V) (k : string) (v : V) : pydict V :=
  match d with
  | [] => [(k, v)]
  | (k', v') :: rest =>
      if k' =? k then (k', v) :: rest else (k', v') :: dict_set rest k v
  end.

(** [d.pop(k, None)], the popped value dropped. *)
Fixpoint dict_pop (d : pydict V) (k : string) : pydict V :=
  match d with
  | [] => []
  | (k', v') :: rest =>
      if k' =? k then rest else (k', v') :: dict_pop rest k
  end.

(** [list(d.keys())] *)
Definition dict_keys (d : pydict V) : list string := map fst d.
End Dict.

(** Truth value of an object, as [if x:] and [not x] test it. *)
Definition truthy (v : value) : bool :=
  match v with
  | VNone => false
  | VBool b => b
  | VInt n => negb (n =? 0)%Z
  | VFloat x => negb (Qeq_bool x 0)
  | VStr s => negb (s =? "")
  | VList items => match items with [] => false | _ => true end
  | VDict entries => match entries with [] => false | _ => true end
  end.

(** [type(x).__name__] *)
Definition type_name (v : value) : string :=
  match v with
  | VNone => "NoneType"
  | VBool _ => "bool"
  | VInt _ => "int"
  | VFloat _ => "float"
  | VStr _ => "str"
  | VList _ => "list"
  | VDict _ => "dict"
  end.

(** [len(x)], defined on strings, lists and dicts only. *)
Definition py_len (v : value) : option nat :=
  match v with
  | VStr s => Some (String.length s)
  | VList items => Some (List.length items)
  | VDict entries => Some (List.length entries)
  | _ => None
  end.

(* ================================================================== *)
(** ** Exceptions and outcomes *)

Inductive exn : Type :=
| ValueError (msg : string)
| TypeError (msg : string)
| AttributeError (msg : string)
| KeyError (key : string)
| OtherError (cls msg : string).

Inductive outcome (A : Type) : Type :=
| Return (a : A)
| Raise (e : exn).
Arguments Return {A} a.
Arguments Raise {A} e.

(** [str(e)] *)
Definition exn_str (e : exn) : string :=
  match e with
  | ValueError m | TypeError m | AttributeError m | OtherError _ m => m
  | KeyError k => "'" ++ k ++ "'"
  end.

(** Sequencing of calls that may raise. *)
Notation "x <- c ;; k" :=
  (match c with Return x => k | Raise e => Raise e end)
  (at level 61, c at next level, right associativity).

(** [try: body except Exception as e: handler(e)] *)
Definition try_except {A : Type} (body : outcome A) (handler : exn -> outcome A) : outcome A :=
  match body with Return a => Return a | Raise e => handler e end.

(** The error of [x.get(...)] on an object that is not a dict. *)
Definition no_get (v : value) : exn :=
  AttributeError ("'" ++ type_name v ++ "' object has no attribute 'get'").

(** The error of [len(x)] on an object without a length. *)
Definition no_len (v : value) : exn :=
  TypeError ("object of type '" ++ type_name v ++ "' has no len()").

Definition len (v : value) : outcome nat :=
  match py_len v with Some n => Return n | None => Raise (no_len v) end.

(** [obj.get(k, default)] *)
Definition py_get (obj : value) (k : string) (default : value) : outcome value :=
  match obj with
  | VDict d => Return (match dict_get d k with Some v => v | None => default end)
  | _ => Raise (no_get obj)
  end.

Fixpoint is_substring (k s : string) : bool :=
  String.prefix k s ||
  match s with
  | EmptyString => false
  | String _ rest => is_substring k rest
  end.

(** [k in container], for a string [k]. *)
Definition py_in (k : string) (container : value) : outcome bool :=
  match container with
  | VDict d => Return (dict_contains d k)
  | VStr s => Return (is_substring k s)
  | VList items =>
      Return (existsb (fun v => match v with VStr s => s =? k | _ => false end) items)
  | _ => Raise (TypeError ("argument of type '" ++ type_name container ++ "' is not iterable"))
  end.

(** [container[k]], for a string [k]. *)
Definition py_getitem (container : value) (k : string) : outcome value :=
  match container with
  | VDict d =>
      match dict_get d k with Some v => Return v | None => Raise (KeyError k) end
  | VStr _ => Raise (TypeError "string indices must be integers, not 'str'")
  | VList _ => Raise (TypeError "list indices must be integers or slices, not str")
  | _ => Raise (TypeError ("'" ++ type_name container ++ "' object is not subscriptable"))
  end.

(* ================================================================== *)
(** ** The world outside a run, and stages (stages.py) *)

(** What a stage action can touch besides the result map: the image files
    the grapher has saved, and how many numbers the random generator has
    handed out. *)
Record world : Type := {
  files : list string;
  draws : nat
}.

(** A stage action is an arbitrary callable of one positional argument.
    The run hands some stages its own result map, the very object it keeps
    filling, so a callable works on that map as well as on the world: it is
    given the map as it stands and leaves the map as the run will find it. *)
Definition callable : Type :=
  value -> dict -> world -> outcome value * dict * world.

Record Stage : Type := {
  name : string;
  action : callable
}.

(** [Stage.execute]: the action called on the arguments, nothing caught. *)
Definition execute (stage : Stage) (arg : value) : dict -> world -> outcome value * dict * world :=
  action stage arg.

(** An action that only computes from its argument. *)
Definition pure_action (f : value -> outcome value) : callable :=
  fun arg results w => (f arg, results, w).

Definition connect_stage : callable :=
  pure_action (fun app_name => Return (VBool true)).

Definition get_log_stage : callable :=
  pure_action (fun app_name => Return (VStr "dummy_log.txt")).

Definition inject_data_stage : callable :=
  pure_action (fun batch_data => Return (VDict [("status", VStr "success")])).

Definition get_replay_stages : list Stage :=
  [ {| name := "connect"; action := connect_stage |};
    {| name := "get_log"; action := get_log_stage |};
    {| name := "inject_data"; action := inject_data_stage |} ].

(* ================================================================== *)
(** ** Test kinds (test_factory.py) *)

(** The loop shared by the three [run] methods:
    [for stage in stages: results[stage.name] = stage.execute(<argument>)].
    The right-hand side is evaluated first, then the entry is stored in the
    map as the action left it. A raised error leaves the loop at once. *)
Fixpoint for_stages (arg_of : Stage -> dict -> value) (stages : list Stage)
    (results : dict) (w : world) : outcome dict * world :=
  match stages with
  | [] => (Return results, w)
  | stage :: rest =>
      match execute stage (arg_of stage results) results w with
      | (Return out, results', w') =>
          for_stages arg_of rest (dict_set results' (name stage) out) w'
      | (Raise e, _, w') => (Raise e, w')
      end
  end.

(** The argument each kind passes to a stage. *)
Definition ReplayTest_arg (app_name : string) (log_path batch_data : value)
    (stage : Stage) (results : dict) : value :=
  if name stage =? "connect" then VStr app_name
  else if name stage =? "get_log" then VStr app_name
  else if name stage =? "read_log" then log_path
  else if name stage =? "inject_data" then batch_data
  else VDict results.

Definition PerformanceTest_arg (app_name : string) (batch_data : value)
    (stage : Stage) (results : dict) : value :=
  if name stage =? "connect" then VStr app_name
  else if name stage =? "send_batch" then batch_data
  else VDict results.

Definition RecoveryTest_arg (app_name : string)
    (stage : Stage) (results : dict) : value :=
  if name stage =? "connect" then VStr app_name
  else if name stage =? "read_log" then VStr "dummy_recovery_log.txt"
  else VDict results.

(** The [run] methods; [kwargs] holds the keyword arguments the signature
    does not name. Each starts from [results = {}]. *)
Definition ReplayTest_run (app_name : string) (stages : list Stage)
    (log_path batch_data : value) (kwargs : dict) : world -> outcome dict * world :=
  for_stages (ReplayTest_arg app_name log_path batch_data) stages [].

Definition PerformanceTest_run (app_name : string) (stages : list Stage)
    (batch_data : value) (kwargs : dict) : world -> outcome dict * world :=
  for_stages (PerformanceTest_arg app_name batch_data) stages [].

Definition RecoveryTest_run (app_name : string) (stages : list Stage)
    (kwargs : dict) : world -> outcome dict * world :=
  for_stages (RecoveryTest_arg app_name) stages [].

(** Instances of the three registered classes. *)
Inductive Test : Type := ReplayTest | PerformanceTest | RecoveryTest.

Definition missing_argument (cls arg : string) : exn :=
  TypeError (cls ++ ".run() missing 1 required positional argument: '" ++ arg ++ "'").

Definition missing_arguments (cls arg1 arg2 : string) : exn :=
  TypeError (cls ++ ".run() missing 2 required positional arguments: '"
             ++ arg1 ++ "' and '" ++ arg2 ++ "'").

Definition multiple_values (cls arg : string) : exn :=
  TypeError (cls ++ ".run() got multiple values for argument '" ++ arg ++ "'").

Definition class_of (test : Test) : string :=
  match test with
  | ReplayTest => "ReplayTest"
  | PerformanceTest => "PerformanceTest"
  | RecoveryTest => "RecoveryTest"
  end.

(** The first keyword of [kw] that names a parameter the call has already
    filled by position: [self], [app_name] or [stages]. *)
Definition clash (kw : dict) : option string :=
  find (fun k => (k =? "self") || (k =? "app_name") || (k =? "stages"))
       (dict_keys kw).

(** [test.run(app_name, stages, **kw)]. Python binds the keywords first: one
    that names a parameter filled by position is a TypeError; then the
    required parameters still missing are a TypeError; the parameters a
    signature names are taken out of [kw], what is left is its [**kwargs].
    Both errors are raised before the body of [run] is entered. *)
Definition Test_run (test : Test) (app_name : string) (stages : list Stage)
    (kw : dict) (w : world) : outcome dict * world :=
  match clash kw with
  | Some arg => (Raise (multiple_values (class_of test) arg), w)
  | None =>
      match test with
      | ReplayTest =>
          match dict_get kw "log_path", dict_get kw "batch_data" with
          | Some log_path, Some batch_data =>
              ReplayTest_run app_name stages log_path batch_data
                (dict_pop (dict_pop kw "log_path") "batch_data") w
          | None, Some _ => (Raise (missing_argument "ReplayTest" "log_path"), w)
          | Some _, None => (Raise (missing_argument "ReplayTest" "batch_data"), w)
          | None, None =>
              (Raise (missing_arguments "ReplayTest" "log_path" "batch_data"), w)
          end
      | PerformanceTest =>
          match dict_get kw "batch_data" with
          | Some batch_data =>
              PerformanceTest_run app_name stages batch_data
                (dict_pop kw "batch_data") w
          | None => (Raise (missing_argument "PerformanceTest" "batch_data"), w)
          end
      | RecoveryTest => RecoveryTest_run app_name stages kw w
      end
  end.

(** The argument-binding rule of a kind under given keyword arguments, when
    the call binds at all. *)
Definition binding (test : Test) (app_name : string) (kw : dict)
    : option (Stage -> dict -> value) :=
  match clash kw with
  | Some _ => None
  | None =>
      match test with
      | ReplayTest =>
          match dict_get kw "log_path", dict_get kw "batch_data" with
          | Some log_path, Some batch_data =>
              Some (ReplayTest_arg app_name log_path batch_data)
          | _, _ => None
          end
      | PerformanceTest =>
          match dict_get kw "batch_data" with
          | Some batch_data => Some (PerformanceTest_arg app_name batch_data)
          | None => None
          end
      | RecoveryTest => Some (RecoveryTest_arg app_name)
      end
  end.

(* ================================================================== *)
(** ** Metrics (metrics.py) *)

(** *** What NumPy computes, on exact numbers

    An array is the list of its elements. The functions below follow
    NumPy's definitions in exact arithmetic: [np.percentile] with its default
    linear method (virtual index [(n-1)*q/100], interpolation between the two
    closest ranks), [np.median] as the middle of the sorted array, [np.std]
    as the population standard deviation. NumPy computes them in doubles, so
    the numbers it returns are these up to rounding. NumPy refuses an empty
    array; here an empty list yields 0, and [calculate_metrics] never passes
    one. *)

Definition qmin (x y : Q) : Q := if Qle_bool x y then x else y.
Definition qmax (x y : Q) : Q := if Qle_bool x y then y else x.

Fixpoint insert_sorted (x : Q) (a : list Q) : list Q :=
  match a with
  | [] => [x]
  | y :: rest => if Qle_bool x y then x :: a else y :: insert_sorted x rest
  end.

Definition np_sort (a : list Q) : list Q := fold_right insert_sorted [] a.

Definition np_min (a : list Q) : Q :=
  match a with [] => 0%Q | x :: rest => fold_left qmin rest x end.

Definition np_max (a : list Q) : Q :=
  match a with [] => 0%Q | x :: rest => fold_left qmax rest x end.

Definition np_sum (a : list Q) : Q := fold_left Qplus a 0%Q.

Definition np_mean (a : list Q) : Q :=
  (np_sum a / inject_Z (Z.of_nat (List.length a)))%Q.

Definition np_median (a : list Q) : Q :=
  let s := np_sort a in
  let n := List.length s in
  if Nat.even n
  then ((nth (n / 2 - 1) s 0 + nth (n / 2) s 0) / 2)%Q
  else nth (n / 2) s 0%Q.

Definition lerp (a b t : Q) : Q := (a + (b - a) * t)%Q.

Definition np_percentile (a : list Q) (q : Q) : Q :=
  let s := np_sort a in
  let n := List.length s in
  let virtual_index := (inject_Z (Z.of_nat (n - 1)) * (q / 100))%Q in
  let previous := Z.to_nat (Qfloor virtual_index) in
  let next := Nat.min (previous + 1) (n - 1) in
  let gamma := (virtual_index - inject_Z (Qfloor virtual_index))%Q in
  lerp (nth previous s 0%Q) (nth next s 0%Q) gamma.

(** Round half to even, to the nearest integer. *)
Definition round_half_even (x : Q) : Z :=
  let f := Qfloor x in
  let r := (x - inject_Z f)%Q in
  match Qcompare r (1 # 2) with
  | Lt => f
  | Gt => (f + 1)%Z
  | Eq => if Z.even f then f else (f + 1)%Z
  end.

(** [round(x, ndigits)] on a float. *)
Definition py_round (x : Q) (ndigits : nat) : Q :=
  let scale := (10 ^ Z.of_nat ndigits)%Z in
  (inject_Z (round_half_even (x * inject_Z scale)) / inject_Z scale)%Q.

(** An [int] too large for a double: from [2^1024 - 2^970] on it rounds to
    [2^1024], which no double holds. *)
Definition float_overflows (n : Z) : bool :=
  (2 ^ 1024 - 2 ^ 970 <=? Z.abs n)%Z.

Definition int_too_large : exn :=
  OtherError "OverflowError" "int too large to convert to float".

Definition not_a_real_number (v : value) : exn :=
  TypeError ("float() argument must be a string or a real number, not '"
             ++ type_name v ++ "'").

(** [float(v)], by which [dtype=float] reads one element: an [int] beyond
    the range of a double is an OverflowError, an object that is no number
    a TypeError. NumPy departs from [float] on three kinds of element, and
    the model does not follow it there: it parses a string (to a number, NaN
    or an infinity, or fails with a ValueError; here always the ValueError),
    it turns [None] into NaN, and it builds a higher-dimensional array of
    nested lists. No property below is stated for data that contains a
    string, [None] or a list. *)
Definition as_float (v : value) : outcome Q :=
  match v with
  | VInt n => if float_overflows n then Raise int_too_large else Return (inject_Z n)
  | VFloat x => Return x
  | VBool b => Return (if b then 1%Q else 0%Q)
  | VStr _ => Raise (ValueError "could not convert string to float")
  | VNone | VList _ | VDict _ => Raise (not_a_real_number v)
  end.

(** The elements are converted in order; the first that fails decides. *)
Fixpoint all_floats (items : list value) : outcome (list Q) :=
  match items with
  | [] => Return []
  | v :: rest =>
      x <- as_float v ;;
      xs <- all_floats rest ;;
      Return (x :: xs)
  end.

(** [np.array(data, dtype=float)] on a flat list or on one object. *)
Definition np_array_float (data : value) : outcome (list Q) :=
  match data with
  | VList items => all_floats items
  | _ => x <- as_float data ;; Return [x]
  end.

Record MetricsResult : Type := {
  min : Q;
  max : Q;
  median : Q;
  std_dev : Q;
  percentile_90 : Q;
  percentile_95 : Q;
  percentile_99 : Q
}.

Section MetricsCalculator.
(** The square root [np.std] takes; the properties below hold whatever
    it returns. *)
Variable np_sqrt : Q -> Q.

Definition np_std (a : list Q) : Q :=
  let m := np_mean a in
  np_sqrt (np_mean (map (fun x => ((x - m) * (x - m))%Q) a)).

Definition calculate_metrics (data : value) : outcome MetricsResult :=
  if negb (truthy data)
  then Raise (ValueError "Cannot calculate metrics for empty dataset")
  else
    match np_array_float data with
    | Raise (ValueError _) | Raise (TypeError _) =>
        Raise (ValueError "Input data must contain only numerical values")
    | Raise e => Raise e
    | Return np_data =>
        Return {|
          min := np_min np_data;
          max := np_max np_data;
          median := np_median np_data;
          std_dev := np_std np_data;
          percentile_90 := np_percentile np_data 90;
          percentile_95 := np_percentile np_data 95;
          percentile_99 := np_percentile np_data 99
        |}
    end.

Definition format_metrics (metrics : MetricsResult) : dict :=
  [ ("min", VFloat (py_round (min metrics) 2));
    ("max", VFloat (py_round (max metrics) 2));
    ("median", VFloat (py_round (median metrics) 2));
    ("std_dev", VFloat (py_round (std_dev metrics) 2));
    ("p90", VFloat (py_round (percentile_90 metrics) 2));
    ("p95", VFloat (py_round (percentile_95 metrics) 2));
    ("p99", VFloat (py_round (percentile_99 metrics) 2)) ].

Definition process_metrics (data : value) : outcome dict :=
  match calculate_metrics data with
  | Return metrics => Return (format_metrics metrics)
  | Raise e => Raise e
  end.
End MetricsCalculator.

(* ================================================================== *)
(** ** The grapher (api/graph.py) *)

Definition is_lower (c : ascii) : bool :=
  let n := nat_of_ascii c in (97 <=? n)%nat && (n <=? 122)%nat.
Definition is_upper (c : ascii) : bool :=
  let n := nat_of_ascii c in (65 <=? n)%nat && (n <=? 90)%nat.
Definition to_upper (c : ascii) : ascii :=
  if is_lower c then ascii_of_nat (nat_of_ascii c - 32) else c.
Definition to_lower (c : ascii) : ascii :=
  if is_upper c then ascii_of_nat (nat_of_ascii c + 32) else c.

(** [s.replace(old, new)] for one-character [old] and [new]. *)
Fixpoint str_replace (old new : ascii) (s : string) : string :=
  match s with
  | EmptyString => EmptyString
  | String c rest =>
      String (if Ascii.eqb c old then new else c) (str_replace old new rest)
  end.

(** [s.title()] on ASCII text: a letter after a letter is lowered, any
    other letter is raised. *)
Fixpoint title_from (after_letter : bool) (s : string) : string :=
  match s with
  | EmptyString => EmptyString
  | String c rest =>
      if is_lower c || is_upper c
      then String (if after_letter then to_lower c else to_upper c) (title_from true rest)
      else String c (title_from false rest)
  end.
Definition str_title (s : string) : string := title_from false s.

(** The calls [create_graphs_stage] makes on [ResponseTimeGrapher]: its
    constructor and its two plot functions, each on response times and a
    title. *)
Inductive grapher_call : Type :=
| Construct
| ScatterPlot (response_times : value) (title : string)
| MultiPlot (response_times : value) (title : string).

Section Stages.
(** Drawing and saving are Matplotlib's, NumPy's and the file system's.
    [render_fault call w] is the message of the exception raised by the
    constructor, or inside the [try] block of a plot function, when the
    call is made in the world [w], if one is raised there; [clock n] is the
    time stamp ([%Y%m%d_%H%M%S]) read when the [n]-th figure is saved
    (counting from 0). *)
Variable render_fault : grapher_call -> world -> option string.
Variable clock : nat -> string.
(** [random n] is the [n]-th number [random.random()] hands out. *)
Variable random : nat -> Q.
Variable np_sqrt : Q -> Q.

Definition savefig (filepath : string) (w : world) : world :=
  {| files := files w ++ [filepath]; draws := draws w |}.

(** Both plots are saved, with default arguments, as
    [graphs/response_time_analysis_<time stamp>.png]. *)
Definition default_filepath (w : world) : string :=
  "graphs/" ++ "response_time_analysis_" ++ clock (List.length (files w)) ++ ".png".

Definition create_scatter_plot (response_times : value) (title : string)
    (w : world) : outcome string * world :=
  if negb (truthy response_times)
  then (Raise (ValueError "No response times provided for plotting"), w)
  else
    match render_fault (ScatterPlot response_times title) w with
    | Some msg => (Raise (ValueError ("Error creating scatter plot: " ++ msg)), w)
    | None => (Return (default_filepath w), savefig (default_filepath w) w)
    end.

Definition create_multi_plot (response_times : value) (title : string)
    (w : world) : outcome string * world :=
  if negb (truthy response_times)
  then (Raise (ValueError "No response times provided for plotting"), w)
  else
    match render_fault (MultiPlot response_times title) w with
    | Some msg => (Raise (ValueError ("Error creating multi-plot: " ++ msg)), w)
    | None => (Return (default_filepath w), savefig (default_filepath w) w)
    end.

(* ================================================================ *)
(** ** Stage actions that compute (stages.py) *)

(** [random.uniform(a, b)], the [n]-th draw. *)
Definition uniform (a b : Q) (n : nat) : Q := (a + (b - a) * random n)%Q.

(** [[random.uniform(0.1, 0.5) for _ in range(100)]] *)
Definition simulated_response_times (w : world) : list value :=
  map (fun i => VFloat (uniform (1 # 10) (1 # 2) (draws w + i))) (seq 0 100).

Definition after_draws (n : nat) (w : world) : world :=
  {| files := files w; draws := draws w + n |}.

Definition read_log_stage : callable :=
  fun log_path results w =>
    (Return (VDict [ ("status", VStr "success");
                     ("response_times", VList (simulated_response_times w));
                     ("entries", VList [VStr "Log entry 1"; VStr "Log entry 2"]) ]),
     results, after_draws 100 w).

Definition send_batch_stage : callable :=
  fun batch_data results w =>
    let response_times := simulated_response_times w in
    (data <- py_get batch_data "data" (VList []) ;;
     batch_size <- len data ;;
     Return (VDict [ ("status", VStr "success");
                     ("response_times", VList response_times);
                     ("batch_size", VInt (Z.of_nat batch_size)) ]),
     results, after_draws 100 w).

Definition error_result (e : exn) : value :=
  VDict [("status", VStr "error"); ("error", VStr (exn_str e))].

(** The loop [for stage_name in ['send_batch', 'read_log']] of
    [calculate_metrics_stage]; [response_times] is the variable as the
    loop holds it. *)
Fixpoint find_response_times (stage_names : list string) (results : value)
    (response_times : value) : outcome value :=
  match stage_names with
  | [] => Return response_times
  | stage_name :: rest =>
      present <- py_in stage_name results ;;
      if (present : bool) then
        entry <- py_getitem results stage_name ;;
        response_times <- py_get entry "response_times" VNone ;;
        if truthy response_times then Return response_times
        else find_response_times rest results response_times
      else find_response_times rest results response_times
  end.

Definition calculate_metrics_stage (results : value) : outcome value :=
  response_times <- find_response_times ["send_batch"; "read_log"] results VNone ;;
  if negb (truthy response_times)
  then Raise (ValueError "No response times found in results")
  else
    try_except
      (metrics <- process_metrics np_sqrt response_times ;;
       sample_size <- len response_times ;;
       from_send_batch <- py_in "send_batch" results ;;
       Return (VDict [ ("metrics", VDict metrics);
                       ("status", VStr "success");
                       ("sample_size", VInt (Z.of_nat sample_size));
                       ("source", VStr (if (from_send_batch : bool)
                                        then "send_batch" else "read_log"));
                       ("response_times", response_times) ]))
      (fun e => Return (error_result e)).

(** [source.replace('_', ' ').title()] *)
Definition shown_source (source : value) : outcome string :=
  match source with
  | VStr s => Return (str_title (str_replace "_" " " s))
  | _ => Raise (AttributeError
                  ("'" ++ type_name source ++ "' object has no attribute 'replace'"))
  end.

Definition create_graphs_stage (results : value) (w : world) : outcome value * world :=
  match py_get results "calculate_metrics" (VDict []) with
  | Raise e => (Raise e, w)
  | Return metrics_result =>
      match py_get metrics_result "response_times" VNone,
            py_get metrics_result "source" (VStr "unknown") with
      | Raise e, _ | _, Raise e => (Raise e, w)
      | Return response_times, Return source =>
          if negb (truthy response_times)
          then (Raise (ValueError "No response times found in metrics results"), w)
          else
            match render_fault Construct w with
            | Some msg => (Return (error_result (OtherError "Exception" msg)), w)
            | None =>
                match shown_source source with
                | Raise e => (Return (error_result e), w)
                | Return shown =>
                    match create_scatter_plot response_times
                            ("Response Times Over Time - " ++ shown) w with
                    | (Raise e, w1) => (Return (error_result e), w1)
                    | (Return scatter_plot_path, w1) =>
                        match create_multi_plot response_times
                                ("Response Time Analysis - " ++ shown) w1 with
                        | (Raise e, w2) => (Return (error_result e), w2)
                        | (Return analysis_plot_path, w2) =>
                            (Return (VDict
                               [ ("status", VStr "success");
                                 ("graphs", VDict
                                    [ ("scatter_plot", VStr scatter_plot_path);
                                      ("analysis_plot", VStr analysis_plot_path) ]) ]),
                             w2)
                        end
                    end
                end
            end
      end
  end.

(** The two analytics stages as stage actions: they read their argument
    and leave the result map as it is. *)
Definition calculate_metrics_action : callable :=
  fun arg results w => (calculate_metrics_stage arg, results, w).

Definition create_graphs_action : callable :=
  fun arg results w =>
    let (out, w') := create_graphs_stage arg w in (out, results, w').

Definition get_performance_stages : list Stage :=
  [ {| name := "connect"; action := connect_stage |};
    {| name := "send_batch"; action := send_batch_stage |};
    {| name := "calculate_metrics"; action := calculate_metrics_action |};
    {| name := "create_graphs"; action := create_graphs_action |} ].

Definition get_recovery_stages : list Stage :=
  [ {| name := "connect"; action := connect_stage |};
    {| name := "read_log"; action := read_log_stage |};
    {| name := "calculate_metrics"; action := calculate_metrics_action |};
    {| name := "create_graphs"; action := create_graphs_action |} ].
End Stages.

(* ================================================================== *)
(** ** The test registry (test_factory.py, TestFactory) *)

(** A class object, as far as the registry looks at it: its name and
    whether [issubclass(cls, Test)] holds. *)
Record pyclass : Type := {
  cls_name : string;
  inherits_Test : bool
}.

Definition ReplayTest_class : pyclass :=
  {| cls_name := "ReplayTest"; inherits_Test := true |}.
Definition PerformanceTest_class : pyclass :=
  {| cls_name := "PerformanceTest"; inherits_Test := true |}.
Definition RecoveryTest_class : pyclass :=
  {| cls_name := "RecoveryTest"; inherits_Test := true |}.

Module TestFactory.
(** The class attribute [_registry]. *)
Definition registry : Type := pydict pyclass.

Definition not_a_test (test_class : pyclass) : exn :=
  ValueError ("Class " ++ cls_name test_class ++ " must inherit from Test").

Definition already_registered (test_type : string) : exn :=
  ValueError ("Test type '" ++ test_type ++ "' is already registered").

Definition register (test_type : string) (test_class : pyclass)
    (reg : registry) : outcome unit * registry :=
  if negb (inherits_Test test_class)
  then (Raise (not_a_test test_class), reg)
  else if dict_contains reg test_type
  then (Raise (already_registered test_type), reg)
  else (Return tt, dict_set reg test_type test_class).

Definition unregister (test_type : string) (reg : registry)
    : outcome unit * registry :=
  (Return tt, dict_pop reg test_type).

Definition get_registered_types (reg : registry) : list string :=
  dict_keys reg.

(** The registry once the module is loaded: the three [register] calls at
    its end, in order, from the empty registry. *)
Definition loaded : registry :=
  let reg := snd (register "replay" ReplayTest_class []) in
  let reg := snd (register "performance" PerformanceTest_class reg) in
  snd (register "recovery" RecoveryTest_class reg).
End TestFactory.

(* ================================================================== *)
(** ** Execution strategies (test_suites.py) *)

Inductive TestExecutionStrategy : Type :=
| ReplayExecutionStrategy
| PerformanceExecutionStrategy
| RecoveryExecutionStrategy
| NewExecutionStrategy.

Definition fixed_batch_data : value :=
  VDict [("data", VList [VInt 1; VInt 2; VInt 3])].

(** [strategy.execute(test, app_name, stages)] *)
Definition strategy_execute (strategy : TestExecutionStrategy) (test : Test)
    (app_name : string) (stages : list Stage) : world -> outcome dict * world :=
  match strategy with
  | ReplayExecutionStrategy =>
      Test_run test app_name stages
        [("log_path", VStr "app.log"); ("batch_data", fixed_batch_data)]
  | PerformanceExecutionStrategy =>
      Test_run test app_name stages [("batch_data", fixed_batch_data)]
  | RecoveryExecutionStrategy => Test_run test app_name stages []
  | NewExecutionStrategy => Test_run test app_name stages []
  end.

(** An object handed to [register_strategy], which checks nothing: an
    instance of one of the four strategy classes of the file, a value such
    as [None], or an instance of a class defined elsewhere, of which the
    registry sees the truth value ([__bool__], or [__len__], when the class
    defines one). *)
Inductive strategy_object : Type :=
| Instance (strategy : TestExecutionStrategy)
| Plain (v : value)
| Foreign (cls : string) (truth : bool).

Module TestExecutionFactory.
(** The class attribute [_strategies]. *)
Definition strategies : Type := pydict strategy_object.



Definition register_strategy (test_type : string)
    (strategy : strategy_object) (reg : strategies) : strategies :=
  dict_set reg test_type strategy.


(** The registry after any series of [register_strategy] calls, oldest
    first, from the empty one. *)
Definition after_registrations (calls : list (string * strategy_object))
    : strategies :=
  fold_left (fun reg call => register_strategy (fst call) (snd call) reg) calls [].

(** The registrations made when the module is loaded. *)
Definition loaded : strategies :=
  after_registrations
    [ ("replay", Instance ReplayExecutionStrategy);
      ("performance", Instance PerformanceExecutionStrategy);
      ("recovery", Instance RecoveryExecutionStrategy);
      ("new_test", Instance NewExecutionStrategy) ].
End TestExecutionFactory.

(* ================================================================== *)
(** ** [TestFactory.create_test] (test_factory.py) *)

(** [sep.join(parts)] *)
Fixpoint str_join (sep : string) (parts : list string) : string :=
  match parts with
  | [] => ""
  | [p] => p
  | p :: rest => p ++ sep ++ str_join sep rest
  end.

Definition unknown_test_type (test_type : string) (available : list string) : exn :=
  ValueError ("Unknown test type: " ++ test_type ++ ". "
              ++ "Available types are: " ++ str_join ", " available).

Section CreateTest.
(** [init_fault test_class] is the exception the call [test_class()] raises,
    if it raises: the TypeError of an abstract class or of a constructor that
    requires arguments, or whatever [__init__] raises. The three classes of
    the file are concrete and define no constructor. *)
Variable init_fault : pyclass -> option exn.

(** [create_test]: the class found under [test_type] is instantiated, inside
    the [try]; a KeyError, of the lookup or of the constructor, becomes the
    ValueError that lists the registered types, any other exception of the
    constructor propagates. The new instance is identified by its class. *)
Definition create_test (test_type : string) (reg : TestFactory.registry)
    : outcome pyclass :=
  match dict_get reg test_type with
  | Some test_class =>
      match init_fault test_class with
      | None => Return test_class
      | Some (KeyError _) =>
          Raise (unknown_test_type test_type (TestFactory.get_registered_types reg))
      | Some e => Raise e
      end
  | None =>
      Raise (unknown_test_type test_type (TestFactory.get_registered_types reg))
  end.
End CreateTest.

(* ================================================================== *)
(** ** Where the grapher saves (api/graph.py) *)






(* ================================================================== *)
(** * Vocabulary of the statements *)



(** The missing-data errors, as the two analytics stages raise them. *)
Definition MissingData_metrics : exn :=
  ValueError "No response times found in results".
Definition MissingData_graphs : exn :=
  ValueError "No response times found in metrics results".

(** The [response_times] field under key [k] of a result map, if the map
    has one there. *)
Definition response_times_under (results : dict) (k : string) : option value :=
  match dict_get results k with
  | Some (VDict entry) => dict_get entry "response_times"
  | _ => None
  end.

(** The [response_times] that key [k] supplies: the field, when it is there
    and true (for a list: not empty). *)
Definition offers (results : dict) (k : string) : option value :=
  match response_times_under results k with
  | Some v => if truthy v then Some v else None
  | None => None
  end.

(** The entry under [k] is absent, or is itself a map. *)
Definition map_or_absent (results : dict) (k : string) : Prop :=
  match dict_get results k with
  | None | Some (VDict _) => True
  | Some _ => False
  end.

(** Key [k] is the one whose [response_times], [v], the search of
    [calculate_metrics_stage] settles on: [send_batch] when it supplies any,
    [read_log] when [send_batch] supplies none. *)
Definition supplied (results : dict) (k : string) (v : value) : Prop :=
  (k = "send_batch" /\ offers results "send_batch" = Some v) \/
  (k = "read_log" /\ map_or_absent results "send_batch" /\
   offers results "send_batch" = None /\ offers results "read_log" = Some v).

(** The [calculate_metrics] entry of a result map is absent, or is a map
    whose [response_times] is absent or false (for a list: empty). *)
Definition metrics_entry_lacks_times (results : dict) : Prop :=
  dict_get results "calculate_metrics" = None \/
  exists entry,
    dict_get results "calculate_metrics" = Some (VDict entry) /\
    (dict_get entry "response_times" = None \/
     exists v, dict_get entry "response_times" = Some v /\ truthy v = false).

(** The action leaves the result map as it found it. *)
Definition keeps_map (stage : Stage) : Prop :=
  forall arg results w, snd (fst (action stage arg results w)) = results.

(** The stage with its action deaf to what it is handed: whatever the
    argument, it acts as on [arg]. *)
Definition pinned (arg : value) (stage : Stage) : Stage :=
  {| name := name stage; action := fun _ => action stage arg |}.

Definition pin_read_log (stage : Stage) : Stage :=
  if name stage =? "read_log"
  then pinned (VStr "dummy_recovery_log.txt") stage
  else stage.


(** The stage with its action made deaf to its argument wherever [fixed]
    names an argument for the stage's name. *)
Definition pin_where (fixed : string -> option value) (stage : Stage) : Stage :=
  match fixed (name stage) with
  | Some arg => pinned arg stage
  | None => stage
  end.

(** The fixed arguments of a Replay run and of a Performance run. *)
Definition replay_fixed (app_name : string) (log_path batch_data : value)
    (stage_name : string) : option value :=
  if stage_name =? "connect" then Some (VStr app_name)
  else if stage_name =? "get_log" then Some (VStr app_name)
  else if stage_name =? "read_log" then Some log_path
  else if stage_name =? "inject_data" then Some batch_data
  else None.

Definition performance_fixed (app_name : string) (batch_data : value)
    (stage_name : string) : option value :=
  if stage_name =? "connect" then Some (VStr app_name)
  else if stage_name =? "send_batch" then Some batch_data
  else None.

(** A number between 0.1 and 0.5. *)
Definition in_simulated_range (x : Q) : Prop := ((1 # 10) <= x /\ x <= (1 # 2))%Q.






(* ================================================================== *)
(** * Inputs of the examples *)

(** A world in which nothing has been saved or drawn yet. *)
Definition replay_start : world := {| files := []; draws := 0 |}.

(** What the specification's Replay example returns. *)
Definition replay_result : dict :=
  [ ("connect", VBool true); ("get_log", VStr "dummy_log.txt");
    ("inject_data", VDict [("status", VStr "success")]) ].

(** [lambda results: results.clear()]: a stage action that empties the map
    it is handed and returns [None]. *)
Definition clear_results : callable :=
  fun results live w => (Return VNone, [], w).

Definition connect_then_clear : list Stage :=
  [ {| name := "connect"; action := connect_stage |};
    {| name := "tidy"; action := clear_results |} ].

(** The keyword arguments [ReplayExecutionStrategy] passes. *)
Definition replay_kw : dict :=
  [("log_path", VStr "app.log"); ("batch_data", fixed_batch_data)].

(** A result map in which [send_batch] ran but recorded no response
    times, [read_log] recorded two. *)
Definition batch_without_times : dict :=
  [ ("send_batch", VDict [("status", VStr "success")]);
    ("read_log", VDict [ ("status", VStr "success");
                         ("response_times", VList [VFloat (1 # 5); VFloat (2 # 5)]) ]) ].


(** A Replay run whose second stage finds no response times. *)
Definition connect_then_metrics : list Stage :=
  [ {| name := "connect"; action := connect_stage |};
    {| name := "calculate_metrics";
       action := calculate_metrics_action (fun x => x) |} ].



(** [lambda arg: arg]: a stage action that returns what it is handed. *)
Definition echo : callable :=
  fun arg results w => (Return arg, results, w).

Definition connect_then_read_log : list Stage :=
  [ {| name := "connect"; action := connect_stage |};
    {| name := "read_log"; action := echo |} ].


(** The abstract base class [Test], which [register] accepts and which
    cannot be instantiated, among classes that can. *)
Definition Test_class : pyclass :=
  {| cls_name := "Test"; inherits_Test := true |}.

Definition abstract_Test_only (test_class : pyclass) : option exn :=
  if cls_name test_class =? "Test"
  then Some (TypeError "Can't instantiate abstract class Test with abstract method run")
  else None.

(** A class outside the [Test] hierarchy. *)
Definition unrelated_class : pyclass :=
  {| cls_name := "Unrelated"; inherits_Test := false |}.

(** Two stages under one name. *)
Definition same_name_twice : list Stage :=
  [ {| name := "step"; action := connect_stage |};
    {| name := "step"; action := get_log_stage |} ].

(* ================================================================== *)
(** * Properties *)

(** ** Dicts *)

Lemma dict_get_set_same {V : Type} (d : pydict V) (k : string) (v : V) :
  dict_get (dict_set d k v) k = Some v.
Proof.
  induction d as [|[k' v'] rest IH]; simpl.
  - now rewrite String.eqb_refl.
  - destruct (k' =? k) eqn:E; simpl; rewrite E; auto.
Qed.

Lemma dict_get_set_other {V : Type} (d : pydict V) (k k0 : string) (v : V) :
  k <> k0 -> dict_get (dict_set d k v) k0 = dict_get d k0.
Proof.
  intros Hne. induction d as [|[k' v'] rest IH]; simpl.
  - destruct (String.eqb_spec k k0); congruence.
  - destruct (String.eqb_spec k' k) as [->|Hk]; simpl.
    + destruct (String.eqb_spec k k0); congruence.
    + now rewrite IH.
Qed.

Lemma dict_get_None_keys {V : Type} (d : pydict V) (k : string) :
  dict_get d k = None <-> ~ In k (dict_keys d).
Proof.
  induction d as [|[k' v'] rest IH]; simpl.
  - tauto.
  - destruct (String.eqb_spec k' k) as [->|Hk].
    + split; [discriminate | intros H; exfalso; apply H; now left].
    + rewrite IH. unfold dict_keys. tauto.
Qed.

Lemma dict_contains_keys {V : Type} (d : pydict V) (k : string) :
  dict_contains d k = true <-> In k (dict_keys d).
Proof.
  unfold dict_contains. destruct (dict_get d k) eqn:E.
  - split; [intros _ | reflexivity].
    destruct (in_dec string_dec k (dict_keys d)) as [H|H]; [exact H|].
    apply dict_get_None_keys in H. congruence.
  - apply dict_get_None_keys in E. split; [discriminate | tauto].
Qed.

(** A new key goes last. *)
Lemma dict_set_fresh {V : Type} (d : pydict V) (k : string) (v : V) :
  ~ In k (dict_keys d) -> dict_set d k v = d ++ [(k, v)].
Proof.
  induction d as [|[k' v'] rest IH]; simpl; intros Hk.
  - reflexivity.
  - destruct (String.eqb_spec k' k) as [->|Hne].
    + exfalso; apply Hk; now left.
    + f_equal. apply IH. intros Hin. apply Hk. now right.
Qed.

(** Popping an absent key changes nothing. *)
Lemma dict_pop_absent {V : Type} (d : pydict V) (k : string) :
  ~ In k (dict_keys d) -> dict_pop d k = d.
Proof.
  induction d as [|[k' v'] rest IH]; simpl; intros Hk.
  - reflexivity.
  - destruct (String.eqb_spec k' k) as [->|Hne].
    + exfalso; apply Hk; now left.
    + f_equal. apply IH. intros Hin. apply Hk. now right.
Qed.

Lemma dict_keys_set {V : Type} (d : pydict V) (k k0 : string) (v : V) :
  In k0 (dict_keys (dict_set d k v)) <-> k0 = k \/ In k0 (dict_keys d).
Proof.
  induction d as [|[k' v'] rest IH]; simpl.
  - intuition.
  - destruct (String.eqb_spec k' k) as [->|Hne]; simpl.
    + intuition.
    + rewrite IH. intuition.
Qed.

Lemma dict_set_keys_present {V : Type} (d : pydict V) (k : string) (v : V) :
  In k (dict_keys d) -> dict_keys (dict_set d k v) = dict_keys d.
Proof.
  induction d as [|[k' v'] rest IH]; simpl; [contradiction|].
  destruct (String.eqb_spec k' k) as [->|Hne]; simpl; [reflexivity|].
  intros [H|H]; [congruence|]. f_equal. now apply IH.
Qed.

(** Storing under a key keeps the keys distinct. *)
Lemma dict_set_nodup {V : Type} (d : pydict V) (k : string) (v : V) :
  NoDup (dict_keys d) -> NoDup (dict_keys (dict_set d k v)).
Proof.
  intros Hnd. destruct (in_dec string_dec k (dict_keys d)) as [Hin|Hout].
  - now rewrite dict_set_keys_present.
  - rewrite dict_set_fresh by assumption. unfold dict_keys.
    rewrite map_app. simpl.
    apply NoDup_app; [exact Hnd | repeat constructor; intros [] |].
    intros a Ha [<-|[]]. contradiction.
Qed.

(** ** NumPy's order statistics *)

Open Scope Q_scope.
















Lemma lerp_ge (a b t m : Q) :
  (m <= a)%Q -> (m <= b)%Q -> (0 <= t)%Q -> (t <= 1)%Q -> (m <= lerp a b t)%Q.
Proof. unfold lerp. intros.
  assert (P1 : 0 <= (b - m) * t) by (apply Qmult_le_0_compat; lra).
  assert (P2 : 0 <= (a - m) * (1 - t)) by (apply Qmult_le_0_compat; lra).
  assert (E : (b - m) * t + (a - m) * (1 - t) == (a + (b - a) * t) - m) by ring. lra.
Qed.





Lemma all_floats_length (items : list value) (xs : list Q) :
  all_floats items = Return xs -> List.length xs = List.length items.
Proof.
  revert xs. induction items as [|v rest IH]; simpl; intros xs H.
  - now inversion H.
  - destruct (as_float v); [|discriminate].
    destruct (all_floats rest) as [ys|e]; [|discriminate].
    inversion H; subst. simpl. f_equal. now apply IH.
Qed.

Close Scope Q_scope.

(** ** Rounding *)

Open Scope Q_scope.





Close Scope Q_scope.

(** ** The analytics stages *)

(** One turn of the search loop on a result map. *)
Lemma find_response_times_step (d : dict) (k : string) (rest : list string)
    (held : value) :
  find_response_times (k :: rest) (VDict d) held =
  match dict_get d k with
  | None => find_response_times rest (VDict d) held
  | Some (VDict entry) =>
      match dict_get entry "response_times" with
      | Some v => if truthy v then Return v else find_response_times rest (VDict d) v
      | None => find_response_times rest (VDict d) VNone
      end
  | Some v => Raise (no_get v)
  end.
Proof.
  simpl. unfold dict_contains.
  destruct (dict_get d k) as [[]|]; try reflexivity.
  simpl. destruct (dict_get entries "response_times"); reflexivity.
Qed.

(** Case analysis on the scrutinee of a [match] in the goal or in a
    hypothesis. *)
Ltac break_match :=
  match goal with
  | H : context [match ?x with _ => _ end] |- _ => destruct x eqn:?
  | |- context [match ?x with _ => _ end] => destruct x eqn:?
  end.

(** The search over [['send_batch', 'read_log']] on a result map, in closed
    form. *)
Lemma find_response_times_closed (d : dict) :
  find_response_times ["send_batch"; "read_log"] (VDict d) VNone =
  match dict_get d "send_batch" with
  | Some (VDict sent) =>
      let first := match dict_get sent "response_times" with
                   | Some v => v | None => VNone end in
      if truthy first then Return first
      else
        match dict_get d "read_log" with
        | Some (VDict logged) =>
            Return (match dict_get logged "response_times" with
                    | Some v => v | None => VNone end)
        | Some v => Raise (no_get v)
        | None => Return first
        end
  | Some v => Raise (no_get v)
  | None =>
      match dict_get d "read_log" with
      | Some (VDict logged) =>
          Return (match dict_get logged "response_times" with
                  | Some v => v | None => VNone end)
      | Some v => Raise (no_get v)
      | None => Return VNone
      end
  end.
Proof.
  rewrite find_response_times_step.
  destruct (dict_get d "send_batch") as [[]|]; try reflexivity.
  - destruct (dict_get entries "response_times") as [u|]; cbv zeta.
    + destruct (truthy u); [reflexivity|].
      rewrite find_response_times_step.
      destruct (dict_get d "read_log") as [[]|]; try reflexivity.
      destruct (dict_get entries0 "response_times") as [u'|]; [|reflexivity].
      destruct (truthy u'); reflexivity.
    + simpl truthy. cbv iota.
      rewrite find_response_times_step.
      destruct (dict_get d "read_log") as [[]|]; try reflexivity.
      destruct (dict_get entries0 "response_times") as [u'|]; [|reflexivity].
      destruct (truthy u'); reflexivity.
  - rewrite find_response_times_step.
    destruct (dict_get d "read_log") as [[]|]; try reflexivity.
    destruct (dict_get entries "response_times") as [u'|]; [|reflexivity].
    destruct (truthy u'); reflexivity.
Qed.

Ltac search_cases :=
  unfold map_or_absent, offers, response_times_under in *;
  rewrite ?find_response_times_closed in *; cbv zeta in *;
  repeat (break_match; simpl truthy in *;
          try discriminate; try contradiction);
  repeat match goal with
         | H : Some _ = Some _ |- _ => inversion H; subst; clear H
         | H : Return _ = Return _ |- _ => inversion H; subst; clear H
         end;
  try congruence.

Section StageFacts.
Variable np_sqrt : Q -> Q.

(** [send_batch] is asked first. *)
Lemma find_send_batch (d : dict) (v : value) :
  offers d "send_batch" = Some v ->
  find_response_times ["send_batch"; "read_log"] (VDict d) VNone = Return v.
Proof. intros H. search_cases. all: congruence. Qed.

(** [read_log] is asked when [send_batch] supplies nothing. *)
Lemma find_read_log (d : dict) (v : value) :
  map_or_absent d "send_batch" ->
  offers d "send_batch" = None ->
  offers d "read_log" = Some v ->
  find_response_times ["send_batch"; "read_log"] (VDict d) VNone = Return v.
Proof. intros Hm Hs Hr. search_cases. all: congruence. Qed.

(** With nothing supplied under either key, the search ends on a false
    value. *)
Lemma find_nothing (d : dict) :
  map_or_absent d "send_batch" -> map_or_absent d "read_log" ->
  offers d "send_batch" = None -> offers d "read_log" = None ->
  exists v, find_response_times ["send_batch"; "read_log"] (VDict d) VNone = Return v
            /\ truthy v = false.
Proof. intros Hm1 Hm2 Hs Hr. search_cases. all: eauto. Qed.

(** A true value the search returns was supplied by one of the two keys. *)
Lemma find_origin (d : dict) (v : value) :
  find_response_times ["send_batch"; "read_log"] (VDict d) VNone = Return v ->
  truthy v = true ->
  offers d "send_batch" = Some v \/ offers d "read_log" = Some v.
Proof.
  intros H T. search_cases.
  all: first [ discriminate T | left; congruence | right; congruence ].
Qed.

Lemma supplied_found (d : dict) (k : string) (v : value) :
  supplied d k v ->
  find_response_times ["send_batch"; "read_log"] (VDict d) VNone = Return v.
Proof.
  intros [[_ H]|(_ & Hm & Hs & Hr)].
  - now apply find_send_batch.
  - now apply find_read_log.
Qed.

Lemma found_supplied (d : dict) (v : value) :
  find_response_times ["send_batch"; "read_log"] (VDict d) VNone = Return v ->
  truthy v = true ->
  exists k, supplied d k v.
Proof.
  intros H T. unfold supplied. search_cases.
  all: first [ discriminate T
             | exists "send_batch"; left; split; [reflexivity | congruence]
             | exists "read_log"; right; repeat split; congruence ].
Qed.

Lemma offers_truthy (d : dict) (k : string) (v : value) :
  offers d k = Some v -> truthy v = true.
Proof.
  unfold offers. destruct (response_times_under d k) as [u|]; [|discriminate].
  destruct (truthy u) eqn:T; [|discriminate]. now intros [= <-].
Qed.

Lemma supplied_truthy (d : dict) (k : string) (v : value) :
  supplied d k v -> truthy v = true.
Proof.
  intros [[_ H]|(_ & _ & _ & H)]; eapply offers_truthy; eassumption.
Qed.

Lemma all_floats_array (items : list value) (xs : list Q) :
  items <> [] -> all_floats items = Return xs ->
  truthy (VList items) = true /\ np_array_float (VList items) = Return xs /\ xs <> [].
Proof.
  intros Hne Hxs. repeat split.
  - destruct items; [congruence | reflexivity].
  - exact Hxs.
  - apply all_floats_length in Hxs. destruct xs; [|discriminate].
    destruct items; [congruence | discriminate].
Qed.

(** The stage on a result map whose search finds a non-empty list of
    numbers. *)
Lemma calculate_metrics_stage_success (d : dict) (items : list value) (xs : list Q) :
  find_response_times ["send_batch"; "read_log"] (VDict d) VNone = Return (VList items) ->
  items <> [] -> all_floats items = Return xs ->
  exists m,
    calculate_metrics np_sqrt (VList items) = Return m /\
    calculate_metrics_stage np_sqrt (VDict d) =
      Return (VDict
        [ ("metrics", VDict (format_metrics m));
          ("status", VStr "success");
          ("sample_size", VInt (Z.of_nat (List.length items)));
          ("source", VStr (if dict_contains d "send_batch"
                           then "send_batch" else "read_log"));
          ("response_times", VList items) ]).
Proof.
  intros Hfind Hne Hxs.
  destruct (all_floats_array items xs Hne Hxs) as (Ht & Ha & _).
  unfold calculate_metrics_stage, process_metrics, calculate_metrics.
  rewrite Hfind, Ht, Ha. cbn [negb].
  eexists. split; reflexivity.
Qed.

End StageFacts.

(* ================================================================== *)
(** * The claims about metrics *)

Section MetricsClaims.
Variable np_sqrt : Q -> Q.

(** C1 (a defect of the code): on a result map whose [send_batch] entry has
    no response times while [read_log] has some, the search of
    [calculate_metrics_stage] takes the data of [read_log], the call
    succeeds, and yet the output's [source] is ["send_batch"]: the field
    is computed from the presence of the key, not from the key that supplied
    the data. *)
Theorem source_names_send_batch_for_read_log_data :
  supplied batch_without_times "read_log" (VList [VFloat (1 # 5); VFloat (2 # 5)]) /\
  exists fields,
    calculate_metrics_stage np_sqrt (VDict batch_without_times) = Return (VDict fields) /\
    dict_get fields "status" = Some (VStr "success") /\
    dict_get fields "response_times" = Some (VList [VFloat (1 # 5); VFloat (2 # 5)]) /\
    dict_get fields "source" = Some (VStr "send_batch").
Proof.
  split.
  - right. repeat split.
  - destruct (calculate_metrics_stage_success np_sqrt batch_without_times
                [VFloat (1 # 5); VFloat (2 # 5)] [1 # 5; 2 # 5]%Q)
      as (m & _ & Hout); [reflexivity | discriminate | reflexivity |].
    eexists. split; [exact Hout|]. repeat split.
Qed.



(** C5 (a defect of the code): where the [send_batch] and [read_log] entries
    of the result map are each absent or a map, and neither supplies
    response times, [calculate_metrics_stage] raises the missing-data
    ValueError, as its docstring says of missing data. Where the entry it
    reads is not a map (it then holds no response times either), it raises
    the AttributeError of the lookup instead. An output that reports success
    comes only from response times that one of the two keys supplied and
    that have a length, which is not 0; they are passed on as they are. *)
Theorem calculate_metrics_missing_data (d : dict) :
  (map_or_absent d "send_batch" -> map_or_absent d "read_log" ->
   offers d "send_batch" = None -> offers d "read_log" = None ->
   calculate_metrics_stage np_sqrt (VDict d) = Raise MissingData_metrics) /\
  (forall v,
     dict_get d "send_batch" = Some v -> (forall entry, v <> VDict entry) ->
     response_times_under d "send_batch" = None /\
     calculate_metrics_stage np_sqrt (VDict d) = Raise (no_get v)) /\
  (forall v,
     map_or_absent d "send_batch" -> offers d "send_batch" = None ->
     dict_get d "read_log" = Some v -> (forall entry, v <> VDict entry) ->
     response_times_under d "read_log" = None /\
     calculate_metrics_stage np_sqrt (VDict d) = Raise (no_get v)) /\
  (forall fields,
     calculate_metrics_stage np_sqrt (VDict d) = Return (VDict fields) ->
     dict_get fields "status" = Some (VStr "success") ->
     exists k v n,
       supplied d k v /\ py_len v = Some (S n) /\
       dict_get fields "response_times" = Some v).
Proof.
  split; [|split; [|split]].
  - intros Hm1 Hm2 Hs Hr.
    destruct (find_nothing d Hm1 Hm2 Hs Hr) as (v & Hfind & Hv).
    unfold calculate_metrics_stage. rewrite Hfind, Hv. reflexivity.
  - intros v Hv Hnot. unfold response_times_under, calculate_metrics_stage.
    rewrite find_response_times_closed, Hv.
    destruct v; try (split; reflexivity). now destruct (Hnot entries).
  - intros v Hm Hs Hv Hnot. unfold response_times_under, calculate_metrics_stage.
    rewrite find_response_times_closed, Hv.
    unfold map_or_absent, offers, response_times_under in Hm, Hs.
    destruct (dict_get d "send_batch") as [sent|].
    + destruct sent; try contradiction.
      destruct (dict_get entries "response_times") as [u|]; cbv zeta.
      * destruct (truthy u); [discriminate|].
        destruct v; try (split; reflexivity). now destruct (Hnot entries0).
      * cbn [truthy].
        destruct v; try (split; reflexivity). now destruct (Hnot entries0).
    + destruct v; try (split; reflexivity). now destruct (Hnot entries).
  - intros fields Hout Hst. unfold calculate_metrics_stage in Hout.
    destruct (find_response_times _ _ _) as [v|e] eqn:Hfind; [|discriminate].
    destruct (truthy v) eqn:T; cbn [negb] in Hout; [|discriminate].
    destruct (found_supplied d v Hfind T) as [k Hk].
    destruct (process_metrics np_sqrt v) as [metrics|e];
      [|inversion Hout; subst; discriminate Hst].
    unfold len in Hout.
    destruct (py_len v) as [n|] eqn:Hn;
      [|inversion Hout; subst; discriminate Hst].
    destruct (py_in "send_batch" (VDict d)) as [b|e];
      [|inversion Hout; subst; discriminate Hst].
    inversion Hout; subst. exists k, v.
    destruct n as [|n].
    + destruct v; try discriminate; cbn in Hn, T.
      * destruct s; discriminate.
      * destruct items; discriminate.
      * destruct entries; discriminate.
    + exists n. now repeat split.
Qed.


End MetricsClaims.



(** The flag [connect] returns, found under [send_batch]: no response
    times, and an AttributeError where the docstring promises a
    ValueError. *)
Lemma calculate_metrics_missing_data_witness :
  response_times_under [("send_batch", VBool true)] "send_batch" = None /\
  calculate_metrics_stage (fun x => x) (VDict [("send_batch", VBool true)])
  = Raise (AttributeError "'bool' object has no attribute 'get'") /\
  calculate_metrics_stage (fun x => x)
    (VDict [("connect", VBool true); ("read_log", VDict [("response_times", VList [])])])
  = Raise MissingData_metrics.
Proof.
  pose proof (proj1 (proj2 (calculate_metrics_missing_data (fun x => x)
                              [("send_batch", VBool true)]))
                (VBool true) eq_refl ltac:(discriminate)) as [H1 H2].
  split; [exact H1|]. split; [exact H2|].
  apply (proj1 (calculate_metrics_missing_data (fun x => x)
                  [("connect", VBool true);
                   ("read_log", VDict [("response_times", VList [])])])).
  - exact I.
  - exact I.
  - reflexivity.
  - reflexivity.
Defined.


(* ================================================================== *)
(** * The stage loop *)

Lemma for_stages_app (bind : Stage -> dict -> value) (pre post : list Stage)
    (results : dict) (w : world) :
  for_stages bind (pre ++ post) results w =
  match for_stages bind pre results w with
  | (Return results', w') => for_stages bind post results' w'
  | (Raise e, w') => (Raise e, w')
  end.
Proof.
  revert results w. induction pre as [|s pre IH]; intros results w; simpl.
  - reflexivity.
  - destruct (execute s (bind s results) results w) as [[[out|e] results'] w'].
    + apply IH.
    + reflexivity.
Qed.

(** A call of [run] that binds its arguments is the loop from the empty
    map under the kind's binding rule. *)
Lemma Test_run_bound (test : Test) (app_name : string) (kw : dict)
    (bind : Stage -> dict -> value) (stages : list Stage) (w : world) :
  binding test app_name kw = Some bind ->
  Test_run test app_name stages kw w = for_stages bind stages [] w.
Proof.
  unfold binding, Test_run. destruct (clash kw); [discriminate|].
  destruct test.
  - destruct (dict_get kw "log_path"), (dict_get kw "batch_data");
      try discriminate. now intros [= <-].
  - destruct (dict_get kw "batch_data"); try discriminate. now intros [= <-].
  - now intros [= <-].
Qed.

(** A call of [run] that does not bind raises a TypeError, with no stage
    executed and the world as it was. *)
Lemma Test_run_unbound (test : Test) (app_name : string) (kw : dict)
    (stages : list Stage) (w : world) :
  binding test app_name kw = None ->
  exists msg, Test_run test app_name stages kw w = (Raise (TypeError msg), w).
Proof.
  unfold binding, Test_run. destruct (clash kw); [eexists; reflexivity|].
  destruct test.
  - destruct (dict_get kw "log_path"), (dict_get kw "batch_data");
      try discriminate; eexists; reflexivity.
  - destruct (dict_get kw "batch_data"); try discriminate; eexists; reflexivity.
  - discriminate.
Qed.

(** A call of [run] that returns has bound its arguments. *)
Lemma Test_run_returns_bound (test : Test) (app_name : string) (kw : dict)
    (stages : list Stage) (w : world) (d : dict) (w' : world) :
  Test_run test app_name stages kw w = (Return d, w') ->
  exists bind, binding test app_name kw = Some bind.
Proof.
  unfold binding, Test_run. destruct (clash kw); [discriminate|].
  destruct test.
  - destruct (dict_get kw "log_path"), (dict_get kw "batch_data");
      try discriminate; eauto.
  - destruct (dict_get kw "batch_data"); try discriminate; eauto.
  - eauto.
Qed.

(** The error of a stage is the error of the loop. *)
Lemma for_stages_raises (bind : Stage -> dict -> value) (pre post : list Stage)
    (s : Stage) (r0 r r' : dict) (w w1 w2 : world) (e : exn) :
  for_stages bind pre r0 w = (Return r, w1) ->
  execute s (bind s r) r w1 = (Raise e, r', w2) ->
  for_stages bind (pre ++ s :: post) r0 w = (Raise e, w2).
Proof.
  intros Hpre Hs. rewrite for_stages_app, Hpre. simpl. now rewrite Hs.
Qed.

(** A loop that returns has run each of its stages to a normal end. *)
Lemma for_stages_returned (bind : Stage -> dict -> value) (pre post : list Stage)
    (s : Stage) (r0 d : dict) (w w' : world) :
  for_stages bind (pre ++ s :: post) r0 w = (Return d, w') ->
  exists r w1 out r' w2,
    for_stages bind pre r0 w = (Return r, w1) /\
    execute s (bind s r) r w1 = (Return out, r', w2).
Proof.
  rewrite for_stages_app.
  destruct (for_stages bind pre r0 w) as [[r|e] w1]; [|discriminate].
  simpl. destruct (execute s (bind s r) r w1) as [[[out|e] r'] w2] eqn:Hs;
    [|discriminate].
  intros _. now exists r, w1, out, r', w2.
Qed.

(** An error of the loop is the error one of its stages raised. *)
Lemma for_stages_raised (bind : Stage -> dict -> value) (stages : list Stage)
    (r0 : dict) (w w' : world) (e : exn) :
  for_stages bind stages r0 w = (Raise e, w') ->
  exists pre s post r w1 r',
    stages = pre ++ s :: post /\
    for_stages bind pre r0 w = (Return r, w1) /\
    execute s (bind s r) r w1 = (Raise e, r', w').
Proof.
  revert r0 w. induction stages as [|s rest IH]; intros r0 w; simpl.
  - discriminate.
  - destruct (execute s (bind s r0) r0 w) as [[[out|e0] r1] w1] eqn:Hs.
    + intros H. destruct (IH _ _ H) as (pre & s' & post & r & w2 & r' & -> & Hp & He).
      exists (s :: pre), s', post, r, w2, r'. repeat split; try assumption.
      simpl. now rewrite Hs.
    + intros [= -> ->]. exists [], s, rest, r0, w, r1. now repeat split.
Qed.

(** With actions that leave the map alone and names that are new to it, the
    loop only appends: one entry per stage, in order. *)
Lemma for_stages_appends (bind : Stage -> dict -> value) (stages : list Stage) :
  Forall keeps_map stages ->
  NoDup (map name stages) ->
  forall (r0 d : dict) (w w' : world),
    (forall n, In n (map name stages) -> ~ In n (dict_keys r0)) ->
    for_stages bind stages r0 w = (Return d, w') ->
    exists outs,
      List.length outs = List.length stages /\
      d = r0 ++ combine (map name stages) outs.
Proof.
  induction stages as [|s rest IH]; intros Hkeep Hnd r0 d w w' Hfresh; simpl.
  - intros [= <- <-]. exists []. now rewrite app_nil_r.
  - inversion Hkeep as [|? ? Hs Hrest]; subst.
    inversion Hnd as [|? ? Hnotin Hnd']; subst.
    pose proof (Hs (bind s r0) r0 w) as Hmap. unfold execute.
    destruct (action s (bind s r0) r0 w) as [[[out|e] r1] w1]; [|discriminate].
    simpl in Hmap. subst r1.
    rewrite dict_set_fresh by (apply Hfresh; now left).
    intros H. apply IH in H; try assumption.
    + destruct H as (outs & Hlen & ->).
      exists (out :: outs). split; [simpl; now rewrite Hlen|].
      now rewrite <- app_assoc.
    + intros n Hn. unfold dict_keys. rewrite map_app, in_app_iff. simpl.
      intros [Hin|[<-|[]]].
      * apply (Hfresh n); [now right | exact Hin].
      * contradiction.
Qed.

(** What the loop leaves in the map when its actions leave the map alone:
    distinct keys, those it had and the names of the stages, and the old
    values under the keys no stage is named after. *)
Lemma for_stages_keys (bind : Stage -> dict -> value) (stages : list Stage) :
  Forall keeps_map stages ->
  forall (r0 d : dict) (w w' : world),
    NoDup (dict_keys r0) ->
    for_stages bind stages r0 w = (Return d, w') ->
    NoDup (dict_keys d) /\
    (forall n, In n (dict_keys d) <-> In n (dict_keys r0) \/ In n (map name stages)) /\
    (forall n, ~ In n (map name stages) -> dict_get d n = dict_get r0 n).
Proof.
  induction stages as [|s rest IH]; intros Hkeep r0 d w w' Hnd; simpl.
  - intros [= <- <-]. repeat split; auto; tauto.
  - inversion Hkeep as [|? ? Hs Hrest]; subst.
    pose proof (Hs (bind s r0) r0 w) as Hmap. unfold execute.
    destruct (action s (bind s r0) r0 w) as [[[out|e] r1] w1]; [|discriminate].
    simpl in Hmap. subst r1. intros H.
    apply IH in H; [|assumption | now apply dict_set_nodup].
    destruct H as (Hnd' & Hkeys & Hold). split; [exact Hnd'|]. split.
    + intros n. rewrite Hkeys, dict_keys_set. simpl. intuition (subst; auto).
    + intros n Hn. rewrite Hold by tauto.
      apply dict_get_set_other. intros E. apply Hn. now left.
Qed.

Lemma combine_keys (names : list string) (outs : list value) :
  List.length outs = List.length names ->
  dict_keys (combine names outs) = names.
Proof.
  revert outs. induction names as [|n names IH]; intros [|o outs]; simpl;
    try discriminate; auto.
  intros [= H]. f_equal. now apply IH.
Qed.

(** The stages of the library leave the result map alone. *)
Lemma pure_action_keeps_map (nm : string) (f : value -> outcome value) :
  keeps_map {| name := nm; action := pure_action f |}.
Proof. intros arg results w. reflexivity. Qed.

Lemma replay_stages_keep_map : Forall keeps_map get_replay_stages.
Proof. repeat constructor. Qed.

Lemma library_stages_keep_map
    (render_fault : grapher_call -> world -> option string)
    (clock : nat -> string) (random : nat -> Q) (np_sqrt : Q -> Q) :
  Forall keeps_map (get_performance_stages render_fault clock random np_sqrt) /\
  Forall keeps_map (get_recovery_stages render_fault clock random np_sqrt).
Proof.
  split; repeat constructor; intros arg results w; try reflexivity;
    simpl; unfold create_graphs_action;
    destruct (create_graphs_stage render_fault clock arg w); reflexivity.
Qed.

(* ================================================================== *)
(** * The claims about [run] *)

(** C2 as stated fails: the run hands its live result map to every stage it
    has no fixed argument for, and a stage action may change that map. On
    [connect] followed by a stage that clears what it receives, the Replay
    run returns a map with the second key only. *)
Lemma run_keys_in_order_counterexample :
  ~ (forall (test : Test) (app_name : string) (stages : list Stage) (kw : dict)
            (w : world) (d : dict) (w' : world),
       NoDup (map name stages) ->
       Test_run test app_name stages kw w = (Return d, w') ->
       dict_keys d = map name stages).
Proof.
  intros H.
  specialize (H ReplayTest "MyApp" connect_then_clear replay_kw
                replay_start
                [("tidy", VNone)] replay_start).
  assert (Hnd : NoDup (map name connect_then_clear)).
  { simpl. repeat constructor; simpl; intuition discriminate. }
  specialize (H Hnd eq_refl). discriminate H.
Qed.

(** C2, as amended: for each of the three kinds and every stage sequence
    with distinct names whose actions leave the result map they are handed
    unchanged, a run that returns yields a map whose keys are the stage names
    in execution order; the map is empty before the first stage, and the
    iteration of each stage appends that stage's output, under its name, to
    the map the stages before it produced, which stays as it was. *)
Theorem run_keys_in_order (test : Test) (app_name : string) (stages : list Stage)
    (kw : dict) (w : world) (d : dict) (w' : world) :
  NoDup (map name stages) ->
  Forall keeps_map stages ->
  Test_run test app_name stages kw w = (Return d, w') ->
  exists bind,
    binding test app_name kw = Some bind /\
    dict_keys d = map name stages /\
    Test_run test app_name [] kw w = (Return [], w) /\
    forall pre s post, stages = pre ++ s :: post ->
      exists r w1 out w2,
        Test_run test app_name pre kw w = (Return r, w1) /\
        execute s (bind s r) r w1 = (Return out, r, w2) /\
        Test_run test app_name (pre ++ [s]) kw w
          = (Return (r ++ [(name s, out)]), w2).
Proof.
  intros Hnd Hkeep Hrun.
  destruct (Test_run_returns_bound _ _ _ _ _ _ _ Hrun) as [bind Hb].
  rewrite (Test_run_bound _ _ _ _ _ _ Hb) in Hrun.
  exists bind. split; [exact Hb|]. split; [|split].
  - destruct (for_stages_appends bind stages Hkeep Hnd [] d w w') as (outs & Hlen & ->);
      [intros n _ [] | exact Hrun |].
    simpl. apply combine_keys. now rewrite Hlen, length_map.
  - now rewrite (Test_run_bound _ _ _ _ _ _ Hb).
  - intros pre s post ->.
    rewrite !(Test_run_bound _ _ _ _ _ _ Hb).
    destruct (for_stages_returned _ _ _ _ _ _ _ _ Hrun)
      as (r & w1 & out & r' & w2 & Hpre & Hs).
    apply Forall_app in Hkeep. destruct Hkeep as [Hkpre Hks].
    inversion Hks as [|? ? Hk _]; subst.
    pose proof (Hk (bind s r) r w1) as Hmap. unfold execute in Hs.
    rewrite Hs in Hmap. simpl in Hmap. subst r'.
    exists r, w1, out, w2. split; [exact Hpre|]. split; [exact Hs|].
    rewrite for_stages_app, Hpre. simpl. unfold execute. rewrite Hs.
    rewrite map_app in Hnd. apply NoDup_app_remove_r in Hnd as Hndpre.
    destruct (for_stages_appends bind pre Hkpre Hndpre [] r w w1) as (outs & Hlen & ->);
      [intros n _ [] | exact Hpre |].
    simpl. rewrite dict_set_fresh; [reflexivity|].
    rewrite combine_keys by now rewrite Hlen, length_map.
    intros Hin. simpl in Hnd.
    eapply NoDup_remove_2 in Hnd. apply Hnd.
    rewrite in_app_iff. now left.
Qed.

(** The Replay run of the specification's example: [connect], [get_log],
    [inject_data] on target ["MyApp"]. *)
Lemma run_keys_in_order_witness :
  NoDup (map name get_replay_stages) /\
  Forall keeps_map get_replay_stages /\
  Test_run ReplayTest "MyApp" get_replay_stages replay_kw replay_start
    = (Return replay_result, replay_start) /\
  exists bind,
    binding ReplayTest "MyApp" replay_kw = Some bind /\
    dict_keys replay_result = ["connect"; "get_log"; "inject_data"] /\
    Test_run ReplayTest "MyApp" [] replay_kw replay_start = (Return [], replay_start) /\
    forall pre s post, get_replay_stages = pre ++ s :: post ->
      exists r w1 out w2,
        Test_run ReplayTest "MyApp" pre replay_kw replay_start = (Return r, w1) /\
        execute s (bind s r) r w1 = (Return out, r, w2) /\
        Test_run ReplayTest "MyApp" (pre ++ [s]) replay_kw replay_start
          = (Return (r ++ [(name s, out)]), w2).
Proof.
  assert (Hnd : NoDup (map name get_replay_stages)).
  { simpl. repeat constructor; simpl; intuition discriminate. }
  split; [exact Hnd|]. split; [exact replay_stages_keep_map|].
  split; [reflexivity|].
  exact (run_keys_in_order ReplayTest "MyApp" get_replay_stages replay_kw
           replay_start replay_result replay_start
           Hnd replay_stages_keep_map eq_refl).
Defined.

(** C3 as stated fails: a run that returns need not return an entry for
    every stage. It hands its live result map to the stages it has no fixed
    argument for, and on [connect] followed by a stage that clears what it
    receives the Replay run returns a map without the entry of [connect]. *)
Lemma run_all_or_nothing_counterexample :
  ~ (forall (test : Test) (app_name : string) (stages : list Stage) (kw : dict)
            (w : world) (d : dict) (w' : world),
       Test_run test app_name stages kw w = (Return d, w') ->
       forall s, In s stages -> In (name s) (dict_keys d)).
Proof.
  intros H.
  specialize (H ReplayTest "MyApp" connect_then_clear replay_kw replay_start
                [("tidy", VNone)] replay_start eq_refl
                {| name := "connect"; action := connect_stage |}
                (or_introl eq_refl)).
  simpl in H. intuition discriminate.
Qed.

(** C3, as amended: under every kind, the error a stage action raises is the
    error the run raises, unchanged, and nothing is returned beside it; a run
    that returns a map has run every stage of the sequence to a normal end,
    storing the output of each under its name in the map as the action left
    it, and its map has an entry for every stage, and no other, when the
    actions leave the map alone; and an error of a run whose call bound its
    arguments is the error of one of its stages. *)
Theorem run_all_or_nothing (test : Test) (app_name : string) (kw : dict)
    (bind : Stage -> dict -> value) (stages : list Stage) (w : world) :
  binding test app_name kw = Some bind ->
  (forall pre s post r w1 e r' w2,
     stages = pre ++ s :: post ->
     Test_run test app_name pre kw w = (Return r, w1) ->
     execute s (bind s r) r w1 = (Raise e, r', w2) ->
     Test_run test app_name stages kw w = (Raise e, w2)) /\
  (forall d w',
     Test_run test app_name stages kw w = (Return d, w') ->
     (forall pre s post, stages = pre ++ s :: post ->
        exists r w1 out r' w2,
          Test_run test app_name pre kw w = (Return r, w1) /\
          execute s (bind s r) r w1 = (Return out, r', w2) /\
          Test_run test app_name (pre ++ [s]) kw w
            = (Return (dict_set r' (name s) out), w2) /\
          (post = [] -> d = dict_set r' (name s) out /\ w' = w2)) /\
     (stages = [] -> d = [] /\ w' = w) /\
     (Forall keeps_map stages ->
      forall n, In n (dict_keys d) <-> In n (map name stages))) /\
  (forall e w',
     Test_run test app_name stages kw w = (Raise e, w') ->
     exists pre s post r w1 r',
       stages = pre ++ s :: post /\
       Test_run test app_name pre kw w = (Return r, w1) /\
       execute s (bind s r) r w1 = (Raise e, r', w')).
Proof.
  intros Hb. split; [|split].
  - intros pre s post r w1 e r' w2 -> Hpre Hs.
    rewrite (Test_run_bound _ _ _ _ _ _ Hb) in Hpre.
    rewrite (Test_run_bound _ _ _ _ _ _ Hb).
    eapply for_stages_raises; eassumption.
  - intros d w' Hrun.
    rewrite (Test_run_bound _ _ _ _ _ _ Hb) in Hrun.
    split; [|split].
    + intros pre s post ->.
      destruct (for_stages_returned _ _ _ _ _ _ _ _ Hrun)
        as (r & w1 & out & r' & w2 & Hpre & Hs).
      exists r, w1, out, r', w2.
      rewrite !(Test_run_bound _ _ _ _ _ _ Hb).
      split; [exact Hpre|]. split; [exact Hs|].
      assert (Hstep : for_stages bind (pre ++ [s]) [] w
                      = (Return (dict_set r' (name s) out), w2)).
      { rewrite for_stages_app, Hpre. simpl. now rewrite Hs. }
      split; [exact Hstep|].
      intros ->. rewrite Hstep in Hrun. now inversion Hrun.
    + intros ->. simpl in Hrun. now inversion Hrun.
    + intros Hkeep n.
      destruct (for_stages_keys bind stages Hkeep [] d w w' (NoDup_nil _) Hrun)
        as (_ & Hkeys & _).
      rewrite Hkeys. simpl. tauto.
  - intros e w' Hrun.
    rewrite (Test_run_bound _ _ _ _ _ _ Hb) in Hrun.
    destruct (for_stages_raised _ _ _ _ _ _ Hrun)
      as (pre & s & post & r & w1 & r' & -> & Hpre & Hs).
    exists pre, s, post, r, w1, r'.
    now rewrite (Test_run_bound _ _ _ _ _ _ Hb).
Qed.

(** C10: in a Recovery run, a stage named [read_log] that is reached is
    called with ["dummy_recovery_log.txt"], and what that call returns is
    stored under [read_log]: whatever keyword arguments [run] is given. The
    run cannot tell a [read_log] action from the same action made deaf to
    its argument and acting as on that constant. A method call on a
    [RecoveryTest] instance either fails before any stage, when a keyword
    names a parameter already filled by position, or is such a run; and
    [RecoveryExecutionStrategy] passes no keyword at all. *)
Theorem recovery_log_path_is_fixed (app_name : string) (stages : list Stage)
    (kwargs : dict) (w : world) :
  (forall pre s post r w1,
     stages = pre ++ s :: post -> name s = "read_log" ->
     RecoveryTest_run app_name pre kwargs w = (Return r, w1) ->
     RecoveryTest_run app_name (pre ++ [s]) kwargs w
     = match action s (VStr "dummy_recovery_log.txt") r w1 with
       | (Return out, r', w2) => (Return (dict_set r' "read_log" out), w2)
       | (Raise e, _, w2) => (Raise e, w2)
       end) /\
  RecoveryTest_run app_name stages kwargs w
    = RecoveryTest_run app_name (map pin_read_log stages) [] w /\
  (clash kwargs = None ->
   Test_run RecoveryTest app_name stages kwargs w
   = RecoveryTest_run app_name stages kwargs w) /\
  (forall arg,
     clash kwargs = Some arg ->
     Test_run RecoveryTest app_name stages kwargs w
     = (Raise (multiple_values "RecoveryTest" arg), w)) /\
  strategy_execute RecoveryExecutionStrategy RecoveryTest app_name stages w
    = RecoveryTest_run app_name stages [] w.
Proof.
  assert (H : forall r w0,
             for_stages (RecoveryTest_arg app_name) stages r w0
             = for_stages (RecoveryTest_arg app_name) (map pin_read_log stages) r w0).
  { induction stages as [|s rest IH]; intros r w0; simpl; [reflexivity|].
    assert (Hs : execute (pin_read_log s)
                   (RecoveryTest_arg app_name (pin_read_log s) r) r w0
                 = execute s (RecoveryTest_arg app_name s r) r w0
                 /\ name (pin_read_log s) = name s).
    { unfold pin_read_log, RecoveryTest_arg, execute.
      destruct (name s =? "read_log") eqn:E; [|rewrite ?E; now split].
      apply String.eqb_eq in E. simpl. rewrite E. now split. }
    destruct Hs as [-> ->].
    destruct (execute s (RecoveryTest_arg app_name s r) r w0) as [[[out|e] r1] w1];
      [apply IH | reflexivity]. }
  split; [|split; [|split; [|split]]].
  - intros pre s post r w1 _ Hname Hpre. unfold RecoveryTest_run in *.
    rewrite for_stages_app, Hpre. simpl.
    unfold execute, RecoveryTest_arg. rewrite Hname. simpl.
    destruct (action s (VStr "dummy_recovery_log.txt") r w1) as [[[out|e] r'] w2];
      reflexivity.
  - apply H.
  - intros Hc. unfold Test_run. now rewrite Hc.
  - intros arg Hc. unfold Test_run. now rewrite Hc.
  - reflexivity.
Qed.

(** A Recovery run given [log_path="other.log"]: its [read_log] stage, which
    returns what it is handed, stores the constant. *)
Lemma recovery_log_path_is_fixed_witness :
  RecoveryTest_run "MyApp" connect_then_read_log [("log_path", VStr "other.log")]
    replay_start
  = (Return [ ("connect", VBool true);
              ("read_log", VStr "dummy_recovery_log.txt") ], replay_start) /\
  Test_run RecoveryTest "MyApp" connect_then_read_log [("log_path", VStr "other.log")]
    replay_start
  = RecoveryTest_run "MyApp" connect_then_read_log [("log_path", VStr "other.log")]
      replay_start /\
  Test_run RecoveryTest "MyApp" connect_then_read_log [("stages", VList [])]
    replay_start
  = (Raise (multiple_values "RecoveryTest" "stages"), replay_start).
Proof.
  split; [|split].
  - apply (proj1 (recovery_log_path_is_fixed "MyApp" connect_then_read_log
                    [("log_path", VStr "other.log")] replay_start)
             [ {| name := "connect"; action := connect_stage |} ]
             {| name := "read_log"; action := echo |} []
             [("connect", VBool true)] replay_start).
    + reflexivity.
    + reflexivity.
    + reflexivity.
  - apply (proj1 (proj2 (proj2 (recovery_log_path_is_fixed "MyApp"
                                  connect_then_read_log
                                  [("log_path", VStr "other.log")] replay_start)))).
    reflexivity.
  - apply (proj1 (proj2 (proj2 (proj2 (recovery_log_path_is_fixed "MyApp"
                                         connect_then_read_log
                                         [("stages", VList [])] replay_start))))).
    reflexivity.
Defined.

Lemma run_all_or_nothing_witness :
  Test_run ReplayTest "MyApp" connect_then_metrics replay_kw
    replay_start
  = (Raise MissingData_metrics, replay_start).
Proof.
  apply (proj1 (run_all_or_nothing ReplayTest "MyApp" replay_kw
                  (ReplayTest_arg "MyApp" (VStr "app.log") fixed_batch_data)
                  connect_then_metrics replay_start eq_refl)
           [ {| name := "connect"; action := connect_stage |} ]
           {| name := "calculate_metrics";
              action := calculate_metrics_action (fun x => x) |}
           []
           [("connect", VBool true)] replay_start
           MissingData_metrics [("connect", VBool true)]).
  - reflexivity.
  - reflexivity.
  - reflexivity.
Defined.

(* ================================================================== *)
(** * The claims about the registries *)

(** C7 as stated fails: [register] checks the class before the name, so a
    class that is not a [Test] under a name already registered is refused
    for the class, not as a duplicate. *)
Lemma register_is_one_shot_counterexample :
  ~ (forall (test_type : string) (test_class : pyclass) (reg : TestFactory.registry),
       In test_type (TestFactory.get_registered_types reg) ->
       fst (TestFactory.register test_type test_class reg)
       = Raise (TestFactory.already_registered test_type)).
Proof.
  intros H.
  specialize (H "replay" unrelated_class TestFactory.loaded).
  simpl in H. specialize (H (or_introl eq_refl)). discriminate H.
Qed.

(** C7, as amended: [register] refuses a class that does not inherit from
    [Test] (the capability error), whatever the name; it refuses a [Test]
    class under a name already registered (the duplicate error); both leave
    the registry as it was; a [Test] class under a new name is appended; and
    [unregister] of an absent name returns without error and leaves the
    registry unchanged. *)
Theorem register_is_one_shot (test_type : string) (test_class : pyclass)
    (reg : TestFactory.registry) :
  (inherits_Test test_class = false ->
   TestFactory.register test_type test_class reg
   = (Raise (TestFactory.not_a_test test_class), reg)) /\
  (inherits_Test test_class = true ->
   In test_type (TestFactory.get_registered_types reg) ->
   TestFactory.register test_type test_class reg
   = (Raise (TestFactory.already_registered test_type), reg)) /\
  (inherits_Test test_class = true ->
   ~ In test_type (TestFactory.get_registered_types reg) ->
   TestFactory.register test_type test_class reg
   = (Return tt, reg ++ [(test_type, test_class)])) /\
  (~ In test_type (TestFactory.get_registered_types reg) ->
   TestFactory.unregister test_type reg = (Return tt, reg)).
Proof.
  unfold TestFactory.register, TestFactory.unregister,
    TestFactory.get_registered_types.
  repeat split.
  - intros ->. reflexivity.
  - intros -> Hin. apply dict_contains_keys in Hin. simpl. now rewrite Hin.
  - intros -> Hout. simpl.
    destruct (dict_contains reg test_type) eqn:E.
    + apply dict_contains_keys in E. contradiction.
    + now rewrite dict_set_fresh.
  - intros Hout. now rewrite dict_pop_absent.
Qed.

Lemma register_is_one_shot_witness :
  TestFactory.register "replay" unrelated_class TestFactory.loaded
    = (Raise (TestFactory.not_a_test unrelated_class), TestFactory.loaded) /\
  TestFactory.register "replay" ReplayTest_class TestFactory.loaded
    = (Raise (TestFactory.already_registered "replay"), TestFactory.loaded) /\
  TestFactory.unregister "nightly" TestFactory.loaded
    = (Return tt, TestFactory.loaded).
Proof.
  split; [|split].
  - apply (proj1 (register_is_one_shot "replay" unrelated_class TestFactory.loaded)).
    reflexivity.
  - apply (proj1 (proj2 (register_is_one_shot "replay" ReplayTest_class
                           TestFactory.loaded))).
    + reflexivity.
    + simpl. now left.
  - apply (proj2 (proj2 (proj2 (register_is_one_shot "nightly" ReplayTest_class
                                  TestFactory.loaded)))).
    simpl. intuition discriminate.
Defined.







(* ================================================================== *)
(** * The claims about the graph stage *)

(** C9 (a defect of the code): [create_graphs_stage] depends on the result
    map through its [calculate_metrics] entry alone; when that entry is
    absent, or is a map whose [response_times] is absent or empty, it raises
    the missing-data ValueError, as its docstring says of missing data; when
    the entry is not a map (it then holds no response times either) it
    raises the AttributeError of the lookup instead. In both cases whatever
    the grapher would do, and with no file saved. *)
Theorem create_graphs_needs_metrics
    (render_fault : grapher_call -> world -> option string)
    (clock : nat -> string) (results : dict) (w : world) :
  (metrics_entry_lacks_times results ->
   create_graphs_stage render_fault clock (VDict results) w
   = (Raise MissingData_graphs, w)) /\
  (forall v,
     dict_get results "calculate_metrics" = Some v ->
     (forall entry, v <> VDict entry) ->
     response_times_under results "calculate_metrics" = None /\
     create_graphs_stage render_fault clock (VDict results) w
     = (Raise (no_get v), w)) /\
  (forall results',
     dict_get results' "calculate_metrics" = dict_get results "calculate_metrics" ->
     create_graphs_stage render_fault clock (VDict results') w
     = create_graphs_stage render_fault clock (VDict results) w).
Proof.
  split; [|split].
  - unfold create_graphs_stage, py_get.
    intros [H|(entry & H & [H2|(v & H2 & Hv)])]; rewrite H; simpl;
      rewrite ?H2; simpl; rewrite ?Hv; reflexivity.
  - intros v Hv Hnot. unfold create_graphs_stage, response_times_under.
    simpl. rewrite Hv.
    destruct v; try (split; reflexivity). now destruct (Hnot entries).
  - intros results' H. unfold create_graphs_stage. simpl. now rewrite H.
Qed.

(** The flag [connect] returns, found under [calculate_metrics]: no response
    times, and an AttributeError where the docstring promises a
    ValueError. *)
Lemma create_graphs_needs_metrics_witness :
  create_graphs_stage (fun _ _ => None) (fun _ => "20240101_000000")
    (VDict [("calculate_metrics", VBool true)]) replay_start
  = (Raise (AttributeError "'bool' object has no attribute 'get'"), replay_start) /\
  create_graphs_stage (fun _ _ => None) (fun _ => "20240101_000000")
    (VDict [ ("connect", VBool true);
             ("calculate_metrics", VDict [("response_times", VList [])]) ])
    replay_start
  = (Raise MissingData_graphs, replay_start).
Proof.
  split.
  - apply (proj1 (proj2 (create_graphs_needs_metrics (fun _ _ => None)
                           (fun _ => "20240101_000000")
                           [("calculate_metrics", VBool true)] replay_start))
             (VBool true) eq_refl).
    discriminate.
  - apply (proj1 (create_graphs_needs_metrics (fun _ _ => None)
                    (fun _ => "20240101_000000")
                    [ ("connect", VBool true);
                      ("calculate_metrics", VDict [("response_times", VList [])]) ]
                    replay_start)).
    right. exists [("response_times", VList [])]. split; [reflexivity|].
    right. exists (VList []). split; reflexivity.
Defined.

(* ================================================================== *)
(** * The library pipelines, end to end *)

Section Pipelines.
Variable render_fault : grapher_call -> world -> option string.
Variable clock : nat -> string.
Variable random : nat -> Q.
Variable np_sqrt : Q -> Q.

Lemma all_floats_of_floats (xs : list Q) :
  all_floats (map VFloat xs) = Return xs.
Proof.
  induction xs as [|x xs IH]; simpl; [reflexivity|]. now rewrite IH.
Qed.

(** The simulated response times: a hundred numbers. *)
Lemma simulated_response_times_facts (w : world) :
  exists xs,
    simulated_response_times random w = map VFloat xs /\
    List.length xs = 100%nat.
Proof.
  exists (map (fun i => uniform random (1 # 10) (1 # 2) (draws w + i)) (seq 0 100)).
  split.
  - unfold simulated_response_times. now rewrite map_map.
  - now rewrite length_map, length_seq.
Qed.

(** On a result map in which the key asked first of those present supplies
    the data, the output names that key as [source], and [sample_size] is
    the length of the data. *)
Lemma calculate_metrics_stage_source (d : dict) (k : string)
    (items : list value) (xs : list Q) :
  supplied d k (VList items) -> all_floats items = Return xs ->
  k = "send_batch" \/ dict_get d "send_batch" = None ->
  exists fields,
    calculate_metrics_stage np_sqrt (VDict d) = Return (VDict fields) /\
    dict_get fields "status" = Some (VStr "success") /\
    dict_get fields "source" = Some (VStr k) /\
    dict_get fields "sample_size" = Some (VInt (Z.of_nat (List.length items))) /\
    dict_get fields "response_times" = Some (VList items).
Proof.
  intros Hk Hxs Hfirst.
  assert (Hne : items <> []).
  { apply supplied_truthy in Hk. destruct items; discriminate. }
  destruct (calculate_metrics_stage_success np_sqrt d items xs
              (supplied_found d k _ Hk) Hne Hxs) as (m & _ & Hout).
  eexists. split; [exact Hout|]. repeat split.
  cbn [dict_get String.eqb Ascii.eqb Bool.eqb]. do 2 f_equal.
  unfold dict_contains.
  destruct Hk as [[-> Hs]|(-> & _ & Hs & _)].
  - unfold offers, response_times_under in Hs.
    destruct (dict_get d "send_batch"); [reflexivity | discriminate].
  - destruct Hfirst as [Hf|Hf]; [discriminate|]. now rewrite Hf.
Qed.

(** [create_graphs_stage] returns, with files or with an error record, once
    the metrics entry holds response times and names its source. *)
Lemma create_graphs_stage_returns (d entry : dict) (times : value) (src : string)
    (w : world) :
  dict_get d "calculate_metrics" = Some (VDict entry) ->
  dict_get entry "response_times" = Some times -> truthy times = true ->
  dict_get entry "source" = Some (VStr src) ->
  exists out w', create_graphs_stage render_fault clock (VDict d) w = (Return out, w').
Proof.
  intros Hd Ht Htrue Hs. unfold create_graphs_stage, py_get.
  rewrite Hd, Ht, Hs, Htrue. cbn [negb shown_source].
  destruct (render_fault Construct w); [eauto|].
  unfold create_scatter_plot, create_multi_plot. rewrite Htrue. cbn [negb].
  destruct (render_fault (ScatterPlot times _) w); [eauto|].
  destruct (render_fault (MultiPlot times _) _); eauto.
Qed.

(** The Performance pipeline of the library, run through its strategy,
    always returns: a map with the four stage names in order, whose metrics
    entry reports success on a hundred samples taken from [send_batch]. *)
Theorem performance_pipeline_returns (app_name : string) (w : world) :
  exists d w' metrics,
    strategy_execute PerformanceExecutionStrategy PerformanceTest app_name
      (get_performance_stages render_fault clock random np_sqrt) w = (Return d, w') /\
    dict_keys d = ["connect"; "send_batch"; "calculate_metrics"; "create_graphs"] /\
    dict_get d "calculate_metrics" = Some (VDict metrics) /\
    dict_get metrics "status" = Some (VStr "success") /\
    dict_get metrics "source" = Some (VStr "send_batch") /\
    dict_get metrics "sample_size" = Some (VInt 100).
Proof.
  destruct (simulated_response_times_facts w) as (xs & Hsim & Hlen).
  set (sent := VDict [ ("status", VStr "success");
                       ("response_times", VList (map VFloat xs));
                       ("batch_size", VInt 3) ]).
  set (r2 := [("connect", VBool true); ("send_batch", sent)]).
  assert (Hsup : supplied r2 "send_batch" (VList (map VFloat xs))).
  { left. split; [reflexivity|]. unfold offers, response_times_under. cbn.
    destruct xs; [discriminate | reflexivity]. }
  destruct (calculate_metrics_stage_source r2 "send_batch" _ xs Hsup
              (all_floats_of_floats xs) (or_introl eq_refl))
    as (fields & Hcalc & Hst & Hsrc & Hsize & Htimes).
  rewrite length_map, Hlen in Hsize.
  set (r3 := r2 ++ [("calculate_metrics", VDict fields)]).
  destruct (create_graphs_stage_returns r3 fields (VList (map VFloat xs))
              "send_batch" (after_draws 100 w)) as (out & w' & Hgraph);
    [reflexivity | exact Htimes | destruct xs; [discriminate | reflexivity]
     | exact Hsrc |].
  exists (r3 ++ [("create_graphs", out)]), w', fields.
  split; [|repeat split; assumption].
  unfold strategy_execute, Test_run, PerformanceTest_run, get_performance_stages.
  cbn [dict_get fixed_batch_data String.eqb Ascii.eqb Bool.eqb for_stages
         execute action name connect_stage pure_action PerformanceTest_arg
         send_batch_stage py_get len py_len List.length dict_set
         calculate_metrics_action create_graphs_action].
  rewrite Hsim. change (Z.of_nat 3) with 3%Z.
  subst r3 r2 sent. cbn [app] in Hgraph. rewrite Hcalc.
  unfold create_graphs_action. rewrite Hgraph. reflexivity.
Qed.

(** The Recovery pipeline of the library, run through its strategy, always
    returns: a map with the four stage names in order, whose metrics entry
    reports success on a hundred samples taken from [read_log]. *)
Theorem recovery_pipeline_returns (app_name : string) (w : world) :
  exists d w' metrics,
    strategy_execute RecoveryExecutionStrategy RecoveryTest app_name
      (get_recovery_stages render_fault clock random np_sqrt) w = (Return d, w') /\
    dict_keys d = ["connect"; "read_log"; "calculate_metrics"; "create_graphs"] /\
    dict_get d "calculate_metrics" = Some (VDict metrics) /\
    dict_get metrics "status" = Some (VStr "success") /\
    dict_get metrics "source" = Some (VStr "read_log") /\
    dict_get metrics "sample_size" = Some (VInt 100).
Proof.
  destruct (simulated_response_times_facts w) as (xs & Hsim & Hlen).
  set (logged := VDict [ ("status", VStr "success");
                         ("response_times", VList (map VFloat xs));
                         ("entries", VList [VStr "Log entry 1"; VStr "Log entry 2"]) ]).
  set (r2 := [("connect", VBool true); ("read_log", logged)]).
  assert (Hsup : supplied r2 "read_log" (VList (map VFloat xs))).
  { right. repeat split. unfold offers, response_times_under. cbn.
    destruct xs; [discriminate | reflexivity]. }
  destruct (calculate_metrics_stage_source r2 "read_log" _ xs Hsup
              (all_floats_of_floats xs) (or_intror eq_refl))
    as (fields & Hcalc & Hst & Hsrc & Hsize & Htimes).
  rewrite length_map, Hlen in Hsize.
  set (r3 := r2 ++ [("calculate_metrics", VDict fields)]).
  destruct (create_graphs_stage_returns r3 fields (VList (map VFloat xs))
              "read_log" (after_draws 100 w)) as (out & w' & Hgraph);
    [reflexivity | exact Htimes | destruct xs; [discriminate | reflexivity]
     | exact Hsrc |].
  exists (r3 ++ [("create_graphs", out)]), w', fields.
  split; [|repeat split; assumption].
  unfold strategy_execute, Test_run, RecoveryTest_run, get_recovery_stages.
  cbn [dict_get String.eqb Ascii.eqb Bool.eqb for_stages
       execute action name connect_stage pure_action RecoveryTest_arg
       read_log_stage dict_set calculate_metrics_action create_graphs_action].
  rewrite Hsim.
  subst r3 r2 logged. cbn [app] in Hgraph. rewrite Hcalc.
  unfold create_graphs_action. rewrite Hgraph. reflexivity.
Qed.
End Pipelines.

(** On a result map that holds only a [read_log] entry with a non-empty list
    of numbers that convert to doubles (no [int] beyond the range of a
    double), [calculate_metrics_stage] succeeds, names [read_log] as source,
    and reports the length of the list as sample size. *)
Theorem read_log_alone_is_the_source (np_sqrt : Q -> Q) (logged : dict)
    (items : list value) (xs : list Q) :
  dict_get logged "response_times" = Some (VList items) ->
  items <> [] -> all_floats items = Return xs ->
  exists fields,
    calculate_metrics_stage np_sqrt (VDict [("read_log", VDict logged)])
      = Return (VDict fields) /\
    dict_get fields "status" = Some (VStr "success") /\
    dict_get fields "source" = Some (VStr "read_log") /\
    dict_get fields "sample_size" = Some (VInt (Z.of_nat (List.length items))).
Proof.
  intros Hl Hne Hxs.
  destruct (calculate_metrics_stage_source np_sqrt
              [("read_log", VDict logged)] "read_log" items xs)
    as (fields & H1 & H2 & H3 & H4 & _).
  - right. repeat split. unfold offers, response_times_under. cbn. rewrite Hl.
    destruct items; [congruence | reflexivity].
  - exact Hxs.
  - now right.
  - now exists fields.
Qed.

Lemma read_log_alone_is_the_source_witness :
  exists fields,
    calculate_metrics_stage (fun x => x)
      (VDict [("read_log",
               VDict [("response_times", VList [VFloat (1 # 5); VFloat (2 # 5)])])])
      = Return (VDict fields) /\
    dict_get fields "status" = Some (VStr "success") /\
    dict_get fields "source" = Some (VStr "read_log") /\
    dict_get fields "sample_size" = Some (VInt 2).
Proof.
  apply (read_log_alone_is_the_source (fun x => x)
           [("response_times", VList [VFloat (1 # 5); VFloat (2 # 5)])]
           [VFloat (1 # 5); VFloat (2 # 5)] [1 # 5; 2 # 5]%Q).
  - reflexivity.
  - discriminate.
  - reflexivity.
Defined.

(* ================================================================== *)
(** * More on the analytics stages *)













Section MoreStages.
Variable render_fault : grapher_call -> world -> option string.
Variable clock : nat -> string.
Variable np_sqrt : Q -> Q.


(** An error record of [calculate_metrics] holds no response times: on a
    result map whose [calculate_metrics] entry is one, [create_graphs_stage]
    raises the missing-data error and saves nothing. *)
Theorem error_record_stops_graphs (results : dict) (e : exn) (w : world) :
  create_graphs_stage render_fault clock
    (VDict (dict_set results "calculate_metrics" (error_result e))) w
  = (Raise MissingData_graphs, w).
Proof.
  unfold create_graphs_stage, py_get. rewrite dict_get_set_same. reflexivity.
Qed.

(** When the metrics entry holds response times and names its source,
    [create_graphs_stage] returns whatever the grapher does. When the
    grapher cannot be constructed or the scatter plot fails, it returns an
    error record and nothing is saved; when the scatter plot is saved and the
    multi-plot fails, it returns an error record although one file has been
    saved; when both are saved it returns their paths. Both paths follow the
    pattern [graphs/response_time_analysis_<time stamp>.png], so that two
    saves read at the same time stamp go to one and the same path. *)
Theorem graphs_paths (results entry : dict) (times : value) (src : string)
    (w : world) :
  dict_get results "calculate_metrics" = Some (VDict entry) ->
  dict_get entry "response_times" = Some times -> truthy times = true ->
  dict_get entry "source" = Some (VStr src) ->
  let shown := str_title (str_replace "_" " " src) in
  let scatter := ScatterPlot times ("Response Times Over Time - " ++ shown) in
  let analysis := MultiPlot times ("Response Time Analysis - " ++ shown) in
  let first := default_filepath clock w in
  let w1 := savefig first w in
  let second := default_filepath clock w1 in
  (forall msg,
     render_fault Construct w = Some msg ->
     create_graphs_stage render_fault clock (VDict results) w
     = (Return (VDict [("status", VStr "error"); ("error", VStr msg)]), w)) /\
  (forall msg,
     render_fault Construct w = None ->
     render_fault scatter w = Some msg ->
     create_graphs_stage render_fault clock (VDict results) w
     = (Return (error_result (ValueError ("Error creating scatter plot: " ++ msg))), w)) /\
  (forall msg,
     render_fault Construct w = None ->
     render_fault scatter w = None ->
     render_fault analysis w1 = Some msg ->
     create_graphs_stage render_fault clock (VDict results) w
     = (Return (error_result (ValueError ("Error creating multi-plot: " ++ msg))),
        {| files := files w ++ [first]; draws := draws w |})) /\
  (render_fault Construct w = None ->
   render_fault scatter w = None ->
   render_fault analysis w1 = None ->
   create_graphs_stage render_fault clock (VDict results) w
   = (Return (VDict [ ("status", VStr "success");
                      ("graphs", VDict [ ("scatter_plot", VStr first);
                                         ("analysis_plot", VStr second) ]) ]),
      {| files := files w ++ [first; second]; draws := draws w |})) /\
  first = ("graphs/response_time_analysis_"
           ++ clock (List.length (files w)) ++ ".png")%string /\
  second = ("graphs/response_time_analysis_"
            ++ clock (S (List.length (files w))) ++ ".png")%string /\
  (clock (List.length (files w)) = clock (S (List.length (files w))) ->
   first = second).
Proof.
  intros Hd Ht Htrue Hs shown scatter analysis first w1 second.
  assert (Hsecond : second = ("graphs/response_time_analysis_"
                              ++ clock (S (List.length (files w))) ++ ".png")%string).
  { unfold second, w1, default_filepath, savefig. cbn [files].
    rewrite length_app, Nat.add_comm. reflexivity. }
  unfold create_graphs_stage, py_get.
  rewrite Hd, Ht, Hs, Htrue. cbn [negb shown_source].
  unfold create_scatter_plot, create_multi_plot. rewrite Htrue. cbn [negb].
  fold shown. fold scatter. fold analysis. fold first. fold w1.
  split; [|split; [|split; [|split; [|split; [|split]]]]].
  - now intros msg ->.
  - now intros msg -> ->.
  - now intros msg -> -> ->.
  - intros -> -> ->. fold second. unfold w1, savefig. cbn [files draws].
    now rewrite <- app_assoc.
  - reflexivity.
  - exact Hsecond.
  - intros E. rewrite Hsecond. unfold first, default_filepath. now rewrite E.
Qed.
End MoreStages.


(** Three samples, a grapher that renders them, and a clock that stands
    still: both plots go to the same path. *)
Lemma graphs_paths_witness :
  create_graphs_stage (fun _ _ => None) (fun _ => "20240101_000000")
    (VDict [("calculate_metrics",
             VDict [ ("source", VStr "read_log");
                     ("response_times",
                      VList [VFloat (1 # 5); VFloat (2 # 5); VFloat (3 # 10)]) ])])
    replay_start
  = (Return (VDict [ ("status", VStr "success");
                     ("graphs", VDict
                        [ ("scatter_plot",
                           VStr "graphs/response_time_analysis_20240101_000000.png");
                          ("analysis_plot",
                           VStr "graphs/response_time_analysis_20240101_000000.png") ]) ]),
     {| files := [ "graphs/response_time_analysis_20240101_000000.png";
                   "graphs/response_time_analysis_20240101_000000.png" ];
        draws := 0 |}).
Proof.
  apply (proj1 (proj2 (proj2 (proj2
           (graphs_paths (fun _ _ => None) (fun _ => "20240101_000000")
              [("calculate_metrics",
                VDict [ ("source", VStr "read_log");
                        ("response_times",
                         VList [VFloat (1 # 5); VFloat (2 # 5); VFloat (3 # 10)]) ])]
              [ ("source", VStr "read_log");
                ("response_times",
                 VList [VFloat (1 # 5); VFloat (2 # 5); VFloat (3 # 10)]) ]
              (VList [VFloat (1 # 5); VFloat (2 # 5); VFloat (3 # 10)])
              "read_log" replay_start
              eq_refl eq_refl eq_refl eq_refl))))).
  - reflexivity.
  - reflexivity.
  - reflexivity.
Defined.

(* ================================================================== *)
(** * More on [run] *)

(** Stage names need not be distinct: whatever the names, when the actions
    leave the result map alone a returning run yields a map with one entry
    per stage name, and the entry under a name is the output of the last
    stage so named. *)
Theorem last_stage_of_a_name_wins (test : Test) (app_name : string)
    (stages : list Stage) (kw : dict) (w : world) (d : dict) (w' : world) :
  Forall keeps_map stages ->
  Test_run test app_name stages kw w = (Return d, w') ->
  NoDup (dict_keys d) /\
  (forall n, In n (dict_keys d) <-> In n (map name stages)) /\
  forall pre s post,
    stages = pre ++ s :: post -> ~ In (name s) (map name post) ->
    exists bind r w1 out w2,
      binding test app_name kw = Some bind /\
      Test_run test app_name pre kw w = (Return r, w1) /\
      execute s (bind s r) r w1 = (Return out, r, w2) /\
      dict_get d (name s) = Some out.
Proof.
  intros Hkeep Hrun.
  destruct (Test_run_returns_bound _ _ _ _ _ _ _ Hrun) as [bind Hb].
  rewrite (Test_run_bound _ _ _ _ _ _ Hb) in Hrun.
  destruct (for_stages_keys bind stages Hkeep [] d w w' (NoDup_nil _) Hrun)
    as (Hnd & Hkeys & _).
  split; [exact Hnd|]. split.
  - intros n. rewrite Hkeys. simpl. tauto.
  - intros pre s post -> Hlast.
    apply Forall_app in Hkeep. destruct Hkeep as [Hkpre Hks].
    inversion Hks as [|? ? Hk Hkpost]; subst.
    rewrite for_stages_app in Hrun.
    destruct (for_stages bind pre [] w) as [[r|e] w1] eqn:Hpre; [|discriminate].
    simpl in Hrun. pose proof (Hk (bind s r) r w1) as Hmap. unfold execute in *.
    destruct (action s (bind s r) r w1) as [[[out|e] r1] w2] eqn:Hs; [|discriminate].
    simpl in Hmap. subst r1.
    destruct (for_stages_keys bind pre Hkpre [] r w w1 (NoDup_nil _) Hpre)
      as (Hndr & _ & _).
    destruct (for_stages_keys bind post Hkpost _ d w2 w'
                (dict_set_nodup r (name s) out Hndr) Hrun) as (_ & _ & Hold).
    exists bind, r, w1, out, w2.
    rewrite (Test_run_bound _ _ _ _ _ _ Hb).
    repeat split; try assumption.
    rewrite (Hold _ Hlast). apply dict_get_set_same.
Qed.

Lemma last_stage_of_a_name_wins_witness :
  Test_run ReplayTest "MyApp" same_name_twice replay_kw replay_start
    = (Return [("step", VStr "dummy_log.txt")], replay_start) /\
  NoDup (dict_keys [("step", VStr "dummy_log.txt")]) /\
  (forall n, In n (dict_keys [("step", VStr "dummy_log.txt")])
             <-> In n (map name same_name_twice)).
Proof.
  split; [reflexivity|].
  pose proof (last_stage_of_a_name_wins ReplayTest "MyApp" same_name_twice
                replay_kw replay_start [("step", VStr "dummy_log.txt")] replay_start)
    as H.
  assert (Hkeep : Forall keeps_map same_name_twice)
    by (repeat constructor).
  destruct (H Hkeep eq_refl) as (H1 & H2 & _). now split.
Defined.

(** A stage is handed its fixed argument, or the live map. *)
Lemma for_stages_pin (bind : Stage -> dict -> value)
    (fixed : string -> option value) :
  (forall s r a, fixed (name s) = Some a -> bind s r = a) ->
  (forall s s' r, name s = name s' -> bind s r = bind s' r) ->
  forall stages r w,
    for_stages bind stages r w = for_stages bind (map (pin_where fixed) stages) r w.
Proof.
  intros Hfixed Hname. induction stages as [|s rest IH]; intros r w; simpl;
    [reflexivity|].
  assert (Hn : name (pin_where fixed s) = name s).
  { unfold pin_where. now destruct (fixed (name s)). }
  assert (He : execute (pin_where fixed s) (bind (pin_where fixed s) r) r w
               = execute s (bind s r) r w).
  { rewrite (Hname _ s r Hn). unfold pin_where, execute.
    destruct (fixed (name s)) as [a|] eqn:E; [|reflexivity].
    simpl. now rewrite (Hfixed s r a E). }
  rewrite He, Hn.
  destruct (execute s (bind s r) r w) as [[[out|e] r1] w1]; [apply IH | reflexivity].
Qed.

(** In a Replay run the stages named [connect] and [get_log] receive the
    target name, [read_log] the caller's log path and [inject_data] the
    caller's batch data, in that they may as well ignore what they are
    handed; a stage of any other name receives the live result map. *)
Theorem replay_fixed_arguments (app_name : string) (stages : list Stage)
    (log_path batch_data : value) (kwargs : dict) (w : world) :
  ReplayTest_run app_name stages log_path batch_data kwargs w
    = ReplayTest_run app_name
        (map (pin_where (replay_fixed app_name log_path batch_data)) stages)
        log_path batch_data kwargs w /\
  forall (other : string) (act : callable) (results : dict),
    ReplayTest_arg app_name log_path batch_data
      {| name := other; action := act |} results
    = match replay_fixed app_name log_path batch_data other with
      | Some arg => arg
      | None => VDict results
      end.
Proof.
  split.
  - apply for_stages_pin.
    + intros s r a. unfold replay_fixed, ReplayTest_arg.
      repeat (destruct (_ =? _); [now intros [= <-]|]). discriminate.
    + intros s s' r H. unfold ReplayTest_arg. now rewrite H.
  - intros other act results. unfold replay_fixed, ReplayTest_arg. simpl.
    repeat (destruct (_ =? _); [reflexivity|]). reflexivity.
Qed.

(** In a Performance run the stage named [connect] receives the target name
    and [send_batch] the caller's batch data; a stage of any other name
    receives the live result map. *)
Theorem performance_fixed_arguments (app_name : string) (stages : list Stage)
    (batch_data : value) (kwargs : dict) (w : world) :
  PerformanceTest_run app_name stages batch_data kwargs w
    = PerformanceTest_run app_name
        (map (pin_where (performance_fixed app_name batch_data)) stages)
        batch_data kwargs w /\
  forall (other : string) (act : callable) (results : dict),
    PerformanceTest_arg app_name batch_data
      {| name := other; action := act |} results
    = match performance_fixed app_name batch_data other with
      | Some arg => arg
      | None => VDict results
      end.
Proof.
  split.
  - apply for_stages_pin.
    + intros s r a. unfold performance_fixed, PerformanceTest_arg.
      repeat (destruct (_ =? _); [now intros [= <-]|]). discriminate.
    + intros s s' r H. unfold PerformanceTest_arg. now rewrite H.
  - intros other act results. unfold performance_fixed, PerformanceTest_arg. simpl.
    repeat (destruct (_ =? _); [reflexivity|]). reflexivity.
Qed.

(** Which strategy can drive which kind. The Replay strategy passes both
    keyword arguments and so drives every kind; a strategy that passes fewer
    than a kind's [run] requires fails with the TypeError of the call, before
    any stage is executed and with the world as it was. *)
Theorem strategy_kind_compatibility (app_name : string) (stages : list Stage)
    (w : world) :
  (forall test, exists bind,
     binding test app_name replay_kw = Some bind /\
     strategy_execute ReplayExecutionStrategy test app_name stages w
     = for_stages bind stages [] w) /\
  strategy_execute PerformanceExecutionStrategy PerformanceTest app_name stages w
    = for_stages (PerformanceTest_arg app_name fixed_batch_data) stages [] w /\
  strategy_execute PerformanceExecutionStrategy RecoveryTest app_name stages w
    = for_stages (RecoveryTest_arg app_name) stages [] w /\
  strategy_execute PerformanceExecutionStrategy ReplayTest app_name stages w
    = (Raise (missing_argument "ReplayTest" "log_path"), w) /\
  (forall strategy,
     strategy = RecoveryExecutionStrategy \/ strategy = NewExecutionStrategy ->
     strategy_execute strategy RecoveryTest app_name stages w
       = for_stages (RecoveryTest_arg app_name) stages [] w /\
     strategy_execute strategy PerformanceTest app_name stages w
       = (Raise (missing_argument "PerformanceTest" "batch_data"), w) /\
     strategy_execute strategy ReplayTest app_name stages w
       = (Raise (missing_arguments "ReplayTest" "log_path" "batch_data"), w)).
Proof.
  repeat split.
  - intros test. destruct test; eexists; split; reflexivity.
  - destruct H as [-> | ->]; reflexivity.
  - destruct H as [-> | ->]; reflexivity.
  - destruct H as [-> | ->]; reflexivity.
Qed.

(** A keyword that names a parameter already filled by position ([self],
    [app_name] or [stages]) makes the call of [run] fail with the TypeError
    for a parameter given twice, under every kind, even when required
    arguments are missing as well; a call that does not bind fails with a
    TypeError before any stage is executed, the world as it was; and a call
    that binds is the loop over the stages from the empty map. *)
Theorem keyword_clash_is_a_type_error (test : Test) (app_name : string)
    (stages : list Stage) (kw : dict) (w : world) :
  (forall arg,
     clash kw = Some arg ->
     Test_run test app_name stages kw w
     = (Raise (multiple_values (class_of test) arg), w)) /\
  (binding test app_name kw = None ->
   exists msg, Test_run test app_name stages kw w = (Raise (TypeError msg), w)) /\
  (forall bind,
     binding test app_name kw = Some bind ->
     clash kw = None /\
     Test_run test app_name stages kw w = for_stages bind stages [] w).
Proof.
  split; [|split].
  - intros arg H. unfold Test_run. now rewrite H.
  - apply Test_run_unbound.
  - intros bind Hb. split; [|now apply Test_run_bound].
    unfold binding in Hb. now destruct (clash kw).
Qed.

Lemma keyword_clash_is_a_type_error_witness :
  Test_run ReplayTest "MyApp" get_replay_stages
    [("log_path", VStr "app.log"); ("stages", VList [])] replay_start
  = (Raise (TypeError "ReplayTest.run() got multiple values for argument 'stages'"),
     replay_start).
Proof.
  apply (proj1 (keyword_clash_is_a_type_error ReplayTest "MyApp" get_replay_stages
                  [("log_path", VStr "app.log"); ("stages", VList [])] replay_start)
           "stages").
  reflexivity.
Defined.

(* ================================================================== *)
(** * More on the test registry *)

Lemma dict_pop_app_last {V : Type} (d : pydict V) (k : string) (v : V) :
  ~ In k (dict_keys d) -> dict_pop (d ++ [(k, v)]) k = d.
Proof.
  induction d as [|[k' v'] rest IH]; simpl; intros Hk.
  - now rewrite String.eqb_refl.
  - destruct (String.eqb_spec k' k) as [->|Hne].
    + exfalso. apply Hk. now left.
    + f_equal. apply IH. intros Hin. apply Hk. now right.
Qed.

Lemma dict_pop_keys {V : Type} (d : pydict V) (k k0 : string) :
  In k0 (dict_keys (dict_pop d k)) -> In k0 (dict_keys d).
Proof.
  induction d as [|[k' v'] rest IH]; simpl; [tauto|].
  destruct (String.eqb_spec k' k) as [->|Hne]; simpl; tauto.
Qed.

(** With distinct keys, popping removes the key and nothing else. *)
Lemma dict_pop_nodup {V : Type} (d : pydict V) (k : string) :
  NoDup (dict_keys d) ->
  NoDup (dict_keys (dict_pop d k)) /\
  ~ In k (dict_keys (dict_pop d k)) /\
  forall k0, k0 <> k -> dict_get (dict_pop d k) k0 = dict_get d k0.
Proof.
  induction d as [|[k' v'] rest IH]; simpl; intros Hnd.
  - repeat split; auto.
  - inversion Hnd as [|? ? Hnotin Hnd']; subst.
    destruct (IH Hnd') as (H1 & H2 & H3).
    destruct (String.eqb_spec k' k) as [->|Hne]; simpl.
    + repeat split; try assumption.
      intros k0 Hk0. destruct (String.eqb_spec k k0); congruence.
    + repeat split.
      * constructor; [|exact H1]. intros Hin. apply Hnotin.
        now apply dict_pop_keys in Hin.
      * intros [E|Hin]; [congruence | contradiction].
      * intros k0 Hk0. destruct (String.eqb_spec k' k0); [reflexivity|].
        now apply H3.
Qed.

(** What [register] adds, [unregister] takes away: after a [Test] class is
    registered under a new name, the name is last among the registered types,
    [create_test] returns an instance of that class when the class can be
    instantiated, and raises what the constructor raises when it cannot (a
    KeyError apart); unregistering the name gives back the registry as it
    was. *)
Theorem register_then_unregister (init_fault : pyclass -> option exn)
    (test_type : string) (test_class : pyclass) (reg : TestFactory.registry) :
  inherits_Test test_class = true ->
  ~ In test_type (TestFactory.get_registered_types reg) ->
  let reg' := snd (TestFactory.register test_type test_class reg) in
  fst (TestFactory.register test_type test_class reg) = Return tt /\
  TestFactory.get_registered_types reg'
    = TestFactory.get_registered_types reg ++ [test_type] /\
  (init_fault test_class = None ->
   create_test init_fault test_type reg' = Return test_class) /\
  (forall e,
     init_fault test_class = Some e -> (forall key, e <> KeyError key) ->
     create_test init_fault test_type reg' = Raise e) /\
  TestFactory.unregister test_type reg' = (Return tt, reg).
Proof.
  intros Hc Hout.
  unfold TestFactory.register, TestFactory.unregister,
    TestFactory.get_registered_types, create_test in *.
  rewrite Hc. cbn [negb].
  destruct (dict_contains reg test_type) eqn:E.
  { apply dict_contains_keys in E. contradiction. }
  cbn [fst snd]. rewrite dict_get_set_same.
  rewrite dict_set_fresh by assumption.
  split; [reflexivity|]. split; [|split; [|split]].
  - unfold dict_keys. now rewrite map_app.
  - now intros ->.
  - intros e -> Hnot. destruct e; try reflexivity. now destruct (Hnot key).
  - now rewrite dict_pop_app_last.
Qed.

Lemma register_then_unregister_witness :
  TestFactory.get_registered_types
    (snd (TestFactory.register "nightly" ReplayTest_class TestFactory.loaded))
    = ["replay"; "performance"; "recovery"; "nightly"] /\
  create_test abstract_Test_only "nightly"
    (snd (TestFactory.register "nightly" ReplayTest_class TestFactory.loaded))
    = Return ReplayTest_class /\
  TestFactory.unregister "nightly"
    (snd (TestFactory.register "nightly" ReplayTest_class TestFactory.loaded))
    = (Return tt, TestFactory.loaded).
Proof.
  assert (Hout : ~ In "nightly" (TestFactory.get_registered_types TestFactory.loaded))
    by (simpl; intuition discriminate).
  destruct (register_then_unregister abstract_Test_only "nightly" ReplayTest_class
              TestFactory.loaded eq_refl Hout) as (_ & H1 & H2 & _ & H3).
  split; [exact H1|]. split; [exact (H2 eq_refl) | exact H3].
Defined.

(** The registered names stay distinct: from a registry with distinct names,
    [register] and [unregister] lead to one with distinct names, whatever
    their arguments; after [unregister] the name is gone, the other types are
    created as before, and the name can be registered again. *)
Theorem registered_names_stay_distinct (reg : TestFactory.registry) :
  NoDup (TestFactory.get_registered_types reg) ->
  (forall test_type test_class,
     NoDup (TestFactory.get_registered_types
              (snd (TestFactory.register test_type test_class reg)))) /\
  (forall test_type,
     let reg' := snd (TestFactory.unregister test_type reg) in
     NoDup (TestFactory.get_registered_types reg') /\
     ~ In test_type (TestFactory.get_registered_types reg') /\
     (forall other, other <> test_type ->
        dict_get reg' other = dict_get reg other) /\
     (forall test_class, inherits_Test test_class = true ->
        fst (TestFactory.register test_type test_class reg') = Return tt)).
Proof.
  intros Hnd. unfold TestFactory.get_registered_types in *. split.
  - intros test_type test_class. unfold TestFactory.register.
    destruct (negb (inherits_Test test_class)); [exact Hnd|].
    destruct (dict_contains reg test_type); [exact Hnd|].
    now apply dict_set_nodup.
  - intros test_type. cbn [TestFactory.unregister snd].
    destruct (dict_pop_nodup reg test_type Hnd) as (H1 & H2 & H3).
    repeat split; try assumption.
    intros test_class Hc. unfold TestFactory.register. rewrite Hc. cbn [negb].
    destruct (dict_contains (dict_pop reg test_type) test_type) eqn:E;
      [|reflexivity].
    apply dict_contains_keys in E. contradiction.
Qed.

Lemma registered_names_stay_distinct_witness :
  NoDup (TestFactory.get_registered_types TestFactory.loaded) /\
  ~ In "replay" (TestFactory.get_registered_types
                   (snd (TestFactory.unregister "replay" TestFactory.loaded))).
Proof.
  assert (Hnd : NoDup (TestFactory.get_registered_types TestFactory.loaded)).
  { simpl. repeat constructor; simpl; intuition discriminate. }
  split; [exact Hnd|].
  exact (proj1 (proj2 (proj2 (registered_names_stay_distinct TestFactory.loaded Hnd)
                         "replay"))).
Defined.

(** [create_test] raises, for a name that is not registered, the ValueError
    that names the type asked for and lists the registered types in the
    order of their registration. For a registered name it returns an
    instance of the class when the class can be instantiated; when the
    constructor raises, its exception propagates, except that a KeyError is
    taken for a missing name and reported as that ValueError. *)
Theorem create_test_knows_the_registered (init_fault : pyclass -> option exn)
    (test_type : string) (reg : TestFactory.registry) :
  (~ In test_type (TestFactory.get_registered_types reg) ->
   create_test init_fault test_type reg
   = Raise (ValueError ("Unknown test type: " ++ test_type
                        ++ ". Available types are: "
                        ++ str_join ", " (TestFactory.get_registered_types reg)))) /\
  (forall test_class,
     dict_get reg test_type = Some test_class -> init_fault test_class = None ->
     create_test init_fault test_type reg = Return test_class) /\
  (forall test_class e,
     dict_get reg test_type = Some test_class -> init_fault test_class = Some e ->
     (forall key, e <> KeyError key) ->
     create_test init_fault test_type reg = Raise e) /\
  (forall test_class key,
     dict_get reg test_type = Some test_class ->
     init_fault test_class = Some (KeyError key) ->
     create_test init_fault test_type reg
     = Raise (unknown_test_type test_type (TestFactory.get_registered_types reg))) /\
  ((exists test_class, create_test init_fault test_type reg = Return test_class) ->
   In test_type (TestFactory.get_registered_types reg)) /\
  str_join ", " (TestFactory.get_registered_types TestFactory.loaded)
  = "replay, performance, recovery".
Proof.
  unfold create_test, TestFactory.get_registered_types.
  split; [|split; [|split; [|split; [|split; [|reflexivity]]]]].
  - intros Hout. apply dict_get_None_keys in Hout. now rewrite Hout.
  - now intros test_class -> ->.
  - intros test_class e -> -> Hnot. destruct e; try reflexivity.
    now destruct (Hnot key).
  - now intros test_class key -> ->.
  - intros [c H].
    destruct (in_dec string_dec test_type (dict_keys reg)) as [Hin|Hout];
      [exact Hin|].
    apply dict_get_None_keys in Hout. rewrite Hout in H. discriminate.
Qed.

(** The abstract class [Test] itself passes the check of [register], and
    [create_test] then fails with the TypeError of its instantiation. *)
Lemma create_test_knows_the_registered_witness :
  fst (TestFactory.register "base" Test_class TestFactory.loaded) = Return tt /\
  create_test abstract_Test_only "base"
    (snd (TestFactory.register "base" Test_class TestFactory.loaded))
  = Raise (TypeError "Can't instantiate abstract class Test with abstract method run") /\
  create_test abstract_Test_only "replay" TestFactory.loaded = Return ReplayTest_class.
Proof.
  split; [reflexivity|]. split.
  - apply (proj1 (proj2 (proj2 (create_test_knows_the_registered abstract_Test_only
                                  "base"
                                  (snd (TestFactory.register "base" Test_class
                                          TestFactory.loaded)))))
             Test_class).
    + reflexivity.
    + reflexivity.
    + discriminate.
  - apply (proj1 (proj2 (create_test_knows_the_registered abstract_Test_only
                           "replay" TestFactory.loaded))
             ReplayTest_class); reflexivity.
Defined.


(* ================================================================== *)
(** * More on the simulated stages *)

Section Simulated.
Variable random : nat -> Q.

Lemma simulated_times (w : world) :
  simulated_response_times random w
  = map VFloat (map (fun i => uniform random (1 # 10) (1 # 2) (draws w + i)) (seq 0 100)).
Proof. unfold simulated_response_times. now rewrite map_map. Qed.

(** [read_log_stage] and [send_batch_stage] each return a hundred response
    times, all between 0.1 and 0.5 as long as [random.random()] stays in
    [0, 1); each takes a hundred numbers from the generator and leaves the
    result map alone. *)
Theorem simulated_times_in_range :
  (forall n, (0 <= random n)%Q /\ (random n < 1)%Q) ->
  forall (arg : value) (results : dict) (w : world),
    exists times,
      List.length times = 100%nat /\
      Forall in_simulated_range times /\
      read_log_stage random arg results w
      = (Return (VDict [ ("status", VStr "success");
                         ("response_times", VList (map VFloat times));
                         ("entries", VList [VStr "Log entry 1"; VStr "Log entry 2"]) ]),
         results, {| files := files w; draws := draws w + 100 |}) /\
      forall fields items,
        arg = VDict fields -> dict_get fields "data" = Some (VList items) ->
        send_batch_stage random arg results w
        = (Return (VDict [ ("status", VStr "success");
                           ("response_times", VList (map VFloat times));
                           ("batch_size", VInt (Z.of_nat (List.length items))) ]),
           results, {| files := files w; draws := draws w + 100 |}).
Proof.
  intros Hrandom arg results w.
  exists (map (fun i => uniform random (1 # 10) (1 # 2) (draws w + i)) (seq 0 100)).
  split; [now rewrite length_map, length_seq|]. split; [|split].
  - apply Forall_forall. intros x Hx. apply in_map_iff in Hx.
    destruct Hx as (i & <- & _). unfold in_simulated_range, uniform.
    destruct (Hrandom (draws w + i)%nat). split; lra.
  - unfold read_log_stage. now rewrite simulated_times.
  - intros fields items -> Hdata. unfold send_batch_stage, py_get, len.
    rewrite Hdata, simulated_times. reflexivity.
Qed.

(** [send_batch_stage] reports as [batch_size] the length of the payload's
    [data], 0 when the payload has no [data]; a payload that is not a map, or
    [data] without a length, makes it raise, after the random numbers have
    been drawn. *)
Theorem send_batch_size (batch_data : value) (results : dict) (w : world) :
  (forall fields,
     batch_data = VDict fields -> dict_get fields "data" = None ->
     send_batch_stage random batch_data results w
     = (Return (VDict [ ("status", VStr "success");
                        ("response_times", VList (simulated_response_times random w));
                        ("batch_size", VInt 0) ]),
        results, after_draws 100 w)) /\
  (forall fields data n,
     batch_data = VDict fields -> dict_get fields "data" = Some data ->
     py_len data = Some n ->
     send_batch_stage random batch_data results w
     = (Return (VDict [ ("status", VStr "success");
                        ("response_times", VList (simulated_response_times random w));
                        ("batch_size", VInt (Z.of_nat n)) ]),
        results, after_draws 100 w)) /\
  (forall fields data,
     batch_data = VDict fields -> dict_get fields "data" = Some data ->
     py_len data = None ->
     send_batch_stage random batch_data results w
     = (Raise (no_len data), results, after_draws 100 w)) /\
  ((forall fields, batch_data <> VDict fields) ->
   send_batch_stage random batch_data results w
   = (Raise (no_get batch_data), results, after_draws 100 w)).
Proof.
  unfold send_batch_stage, py_get, len. repeat split.
  - intros fields -> Hdata. now rewrite Hdata.
  - intros fields data n -> Hdata Hlen. now rewrite Hdata, Hlen.
  - intros fields data -> Hdata Hlen. now rewrite Hdata, Hlen.
  - intros Hnot. destruct batch_data; try reflexivity. now destruct (Hnot entries).
Qed.
End Simulated.

Lemma simulated_times_in_range_witness :
  exists times,
    List.length times = 100%nat /\
    Forall in_simulated_range times /\
    read_log_stage (fun _ => (1 # 4)%Q) (VStr "app.log") [] replay_start
    = (Return (VDict [ ("status", VStr "success");
                       ("response_times", VList (map VFloat times));
                       ("entries", VList [VStr "Log entry 1"; VStr "Log entry 2"]) ]),
       [], {| files := []; draws := 100 |}).
Proof.
  destruct (simulated_times_in_range (fun _ => (1 # 4)%Q)
              ltac:(intros n; split; reflexivity || discriminate)
              (VStr "app.log") [] replay_start)
    as (times & H1 & H2 & H3 & _).
  exists times. repeat split; assumption.
Defined.

Lemma send_batch_size_witness :
  fst (fst (send_batch_stage (fun _ => (1 # 4)%Q) (VDict [("payload", VInt 1)])
              [] replay_start))
  = Return (VDict [ ("status", VStr "success");
                    ("response_times",
                     VList (simulated_response_times (fun _ => (1 # 4)%Q) replay_start));
                    ("batch_size", VInt 0) ]).
Proof.
  rewrite (proj1 (send_batch_size (fun _ => (1 # 4)%Q) (VDict [("payload", VInt 1)])
                    [] replay_start) [("payload", VInt 1)] eq_refl eq_refl).
  reflexivity.
Defined.
